(** * fast_engset: a shallow embedding of [fast_engset/_fast_engset.py]

    The module computes quantities of the Engset queueing model with four
    root finders built on a truncated hypergeometric series.

    Modelling choices:
    - Python floats are an abstract arithmetic [PyFloat F] with two
      instances: IEEE-754 binary64 through Rocq's primitive floats (the
      faithful one, used to evaluate the code on concrete inputs) and
      [ExactFloat], the exact values of floats (NaN, +/-inf, rationals)
      with unrounded arithmetic, used where a proof needs algebraic laws.
    - Python exceptions are the [Raise] case of the [Outcome] monad; the
      [while True] loops of the source take a [fuel] argument, and
      [OutOfFuel] (never a Python outcome) means the fuel ran out.
    - numpy float arrays are lists of floats with numpy's indexing rules;
      Python ints are [Z]. *)

From Stdlib Require Import ZArith QArith Qabs Lqa List Bool Lia.
From Stdlib Require Import PrimFloat FloatOps SpecFloat.
From Stdlib Require Uint63 FloatAxioms.
Import ListNotations.

Open Scope Z_scope.

(** ** Exact float values *)

(** The value a Python float denotes: NaN, an infinity, or a rational
    (the two zeros are both [XFin 0]). *)
Inductive ExactFloat :=
| XNaN
| XInf (neg : bool)
| XFin (q : Q).

Module XF.

Definition Qlt_bool (a b : Q) : bool := negb (Qle_bool b a).

Definition lt (x y : ExactFloat) : bool :=
  match x, y with
  | XNaN, _ | _, XNaN => false
  | XInf true, XInf false => true
  | XInf true, XFin _ => true
  | XFin _, XInf false => true
  | XFin a, XFin b => Qlt_bool a b
  | _, _ => false
  end.

Definition le (x y : ExactFloat) : bool :=
  match x, y with
  | XNaN, _ | _, XNaN => false
  | XInf true, _ => true
  | _, XInf false => true
  | XFin a, XFin b => Qle_bool a b
  | _, _ => false
  end.

Definition eq (x y : ExactFloat) : bool :=
  match x, y with
  | XInf a, XInf b => Bool.eqb a b
  | XFin a, XFin b => Qeq_bool a b
  | _, _ => false
  end.

Definition opp (x : ExactFloat) : ExactFloat :=
  match x with
  | XNaN => XNaN
  | XInf s => XInf (negb s)
  | XFin q => XFin (- q)
  end.

Definition add (x y : ExactFloat) : ExactFloat :=
  match x, y with
  | XNaN, _ | _, XNaN => XNaN
  | XInf a, XInf b => if Bool.eqb a b then XInf a else XNaN
  | XInf a, XFin _ | XFin _, XInf a => XInf a
  | XFin a, XFin b => XFin (a + b)
  end.

Definition sub (x y : ExactFloat) : ExactFloat := add x (opp y).

Definition qneg (q : Q) : bool := Qlt_bool q 0.

Definition mul (x y : ExactFloat) : ExactFloat :=
  match x, y with
  | XNaN, _ | _, XNaN => XNaN
  | XInf a, XInf b => XInf (xorb a b)
  | XInf a, XFin q | XFin q, XInf a =>
      if Qeq_bool q 0 then XNaN else XInf (xorb a (qneg q))
  | XFin a, XFin b => XFin (a * b)
  end.

Definition div (x y : ExactFloat) : ExactFloat :=
  match x, y with
  | XNaN, _ | _, XNaN => XNaN
  | XInf _, XInf _ => XNaN
  | XInf a, XFin q => XInf (xorb a (qneg q))
  | XFin _, XInf _ => XFin 0
  | XFin a, XFin b =>
      if Qeq_bool b 0 then (if Qeq_bool a 0 then XNaN else XInf (qneg a))
      else XFin (a / b)
  end.

Definition abs (x : ExactFloat) : ExactFloat :=
  match x with
  | XNaN => XNaN
  | XInf _ => XInf false
  | XFin q => XFin (Qabs q)
  end.

End XF.

(** ** The float interface *)

Class PyFloat (F : Type) := {
  fadd : F -> F -> F;
  fsub : F -> F -> F;
  fmul : F -> F -> F;
  fdiv : F -> F -> F;
  fabs : F -> F;
  flt : F -> F -> bool;
  fle : F -> F -> bool;
  feq : F -> F -> bool;
  fofZ : Z -> F;
  fexact : F -> ExactFloat
}.

#[global] Instance ExactFloat_PyFloat : PyFloat ExactFloat := {
  fadd := XF.add; fsub := XF.sub; fmul := XF.mul; fdiv := XF.div;
  fabs := XF.abs; flt := XF.lt; fle := XF.le; feq := XF.eq;
  fofZ := fun z => XFin (inject_Z z);
  fexact := fun x => x
}.

(** Conversion of a Python int to a binary64 float through [of_uint63]:
    exact for |z| < 2^53 and correctly rounded for |z| < 2^63.  Unlike
    Python's [float(z)] it wraps modulo 2^63 for larger |z|.  The concrete
    runs of this file convert only ints below 2^53; the statements over any
    [PyFloat] instance do not depend on this conversion. *)
Definition float_of_Z (z : Z) : float :=
  if z <? 0 then PrimFloat.opp (PrimFloat.of_uint63 (Uint63.of_Z (- z)))
  else PrimFloat.of_uint63 (Uint63.of_Z z).

Definition exact_of_float (x : float) : ExactFloat :=
  match Prim2SF x with
  | S754_nan => XNaN
  | S754_zero _ => XFin 0
  | S754_infinity s => XInf s
  | S754_finite s m e =>
      let mz := if s then Zneg m else Zpos m in
      match e with
      | Zpos _ | Z0 => XFin (inject_Z (mz * 2 ^ e))
      | Zneg p => XFin (Qmake mz (Pos.pow 2 p))
      end
  end.

#[global] Instance Binary64_PyFloat : PyFloat float := {
  fadd := PrimFloat.add; fsub := PrimFloat.sub; fmul := PrimFloat.mul;
  fdiv := PrimFloat.div; fabs := PrimFloat.abs;
  flt := PrimFloat.ltb; fle := PrimFloat.leb; feq := PrimFloat.eqb;
  fofZ := float_of_Z;
  fexact := exact_of_float
}.

(** ** Python outcomes *)

Inductive PyExc :=
| ValueError
| ZeroDivisionError
| IndexError
| UnboundLocalError
| OverflowError
| TypeError.

Inductive Outcome (A : Type) :=
| Ok (a : A)
| Raise (e : PyExc)
| OutOfFuel.
Arguments Ok {A} a.
Arguments Raise {A} e.
Arguments OutOfFuel {A}.

Definition bind {A B} (m : Outcome A) (k : A -> Outcome B) : Outcome B :=
  match m with
  | Ok a => k a
  | Raise e => Raise e
  | OutOfFuel => OutOfFuel
  end.

Notation "x <- m ;; k" := (bind m (fun x => k))
  (at level 61, m at next level, right associativity).

(** ** Results *)

Inductive Status := OK | UNBOUNDED | MAX_N_ITERS_REACHED | UNSTABLE.

(** [value: Union[float, int]] *)
Inductive PyVal (F : Type) :=
| VFloat (x : F)
| VInt (n : Z).
Arguments VFloat {F} x.
Arguments VInt {F} n.

Record Result (F : Type) := mkResult {
  n_iters : Z;
  status : Status;
  value : PyVal F
}.
Arguments mkResult {F} n_iters status value.
Arguments n_iters {F} r.
Arguments status {F} r.
Arguments value {F} r.

Inductive Algorithm := BISECT | FIXEDP | NEWTON.

(** The [alg] argument: a member of [Algorithm] or any other object. *)
Inductive Selector := Alg (a : Algorithm) | NotAnAlgorithm.

(** [sys.maxsize] on a 64-bit build. *)
Definition sys_maxsize : Z := 2 ^ 63 - 1.

Section Code.
Context {F : Type} `{PyFloat F}.

Local Notation "0.0" := (fofZ 0).
Local Notation "1.0" := (fofZ 1).
Local Notation "2.0" := (fofZ 2).

(** Float division [x / y] of the routines, raising when [y == 0.0]: the
    semantics of the default build, which compiles them with numba's
    [jit(nopython=True)], whose default error model is Python's.  Run as
    plain Python (no numba, or [FAST_ENGSET_NO_JIT] set), a division whose
    divisor is a numpy float64, such as a series value [h1], yields inf or
    nan instead of raising. *)
Definition py_div (x y : F) : Outcome F :=
  if feq y 0.0 then Raise ZeroDivisionError else Ok (fdiv x y).

(** Python true division of two ints. *)
Definition py_int_div (a b : Z) : Outcome F :=
  if b =? 0 then Raise ZeroDivisionError else Ok (fdiv (fofZ a) (fofZ b)).

(** numpy indexing of a 1-d array: negative indices count from the end. *)
Definition np_index (len i : Z) : option nat :=
  if (0 <=? i) && (i <? len) then Some (Z.to_nat i)
  else if (- len <=? i) && (i <? 0) then Some (Z.to_nat (len + i))
  else None.

Definition np_get (a : list F) (i : Z) : Outcome F :=
  match np_index (Z.of_nat (length a)) i with
  | Some j => match nth_error a j with Some x => Ok x | None => Raise IndexError end
  | None => Raise IndexError
  end.

Fixpoint list_set {A} (l : list A) (j : nat) (x : A) : list A :=
  match l, j with
  | [], _ => []
  | _ :: t, O => x :: t
  | h :: t, S j' => h :: list_set t j' x
  end.

Definition np_set (a : list F) (i : Z) (x : F) : Outcome (list F) :=
  match np_index (Z.of_nat (length a)) i with
  | Some j => Ok (list_set a j x)
  | None => Raise IndexError
  end.

(** [np.zeros((n,))] *)
Definition np_zeros (n : Z) : Outcome (list F) :=
  if n <? 0 then Raise ValueError else Ok (repeat 0.0 (Z.to_nat n)).

(** ** [_hyp2f1_coefs] *)

(** The [while True] loop: state [f], [g], [k], [coefs]. *)
Fixpoint hyp2f1_coefs_loop (fuel : nat) (f g k : Z) (coefs : list F)
  : Outcome (list F) :=
  match fuel with
  | O => OutOfFuel
  | S fuel' =>
      q <- py_int_div f g ;;
      prev <- np_get coefs (k - 1) ;;
      coefs <- np_set coefs k (fmul q prev) ;;
      let f := f - 1 in
      if f =? 0 then Ok coefs
      else hyp2f1_coefs_loop fuel' f (g + 1) (k + 1) coefs
  end.

Definition _hyp2f1_coefs (fuel : nat) (param1 param2 : Z) : Outcome (list F) :=
  let f := param1 in
  let g := param2 - param1 in
  coefs <- np_zeros (param1 + 1) ;;
  coefs <- np_set coefs 0 1.0 ;;
  hyp2f1_coefs_loop fuel f g 1 coefs.

(** ** [_hyp2f1_from_coefs] *)

Fixpoint hyp2f1_from_coefs_loop (fuel : nat) (coefs : list F) (param1 : Z)
    (arg tol h1 mlt : F) (k : Z) : Outcome F :=
  match fuel with
  | O => OutOfFuel
  | S fuel' =>
      c <- np_get coefs k ;;
      let u := fmul c mlt in
      let h1 := fadd h1 u in
      if k =? param1 then Ok h1
      else
        r <- py_div u h1 ;;
        if fle (fabs r) tol then Ok h1
        else hyp2f1_from_coefs_loop fuel' coefs param1 arg tol h1 (fmul mlt arg) (k + 1)
  end.

Definition _hyp2f1_from_coefs (fuel : nat) (coefs : list F) (param1 : Z) (arg tol : F)
  : Outcome F :=
  hyp2f1_from_coefs_loop fuel coefs param1 arg tol 1.0 arg 1.

Definition _hyp2f1 (fuel : nat) (param1 param2 : Z) (arg tol : F) : Outcome F :=
  coefs <- _hyp2f1_coefs fuel param1 param2 ;;
  _hyp2f1_from_coefs fuel coefs param1 arg tol.

(** ** The root finders

    A [for n_iters in range(a, max_n_iters + 1)] loop is a [Fixpoint] on the
    number of remaining iterations; a loop variable assigned only inside the
    loop body is an [option] ([None]: unbound), read at the final [return]
    through [bound], which raises [UnboundLocalError] on [None].  This is
    the semantics of the source run as plain Python; numba's compiled code
    does not raise there. *)

Definition bound {A} (x : option A) : Outcome A :=
  match x with Some a => Ok a | None => Raise UnboundLocalError end.

Definition range_len (a b : Z) : nat := Z.to_nat (b - a).

(** [1.0 / _hyp2f1_from_coefs(coefs, param1, arg, tol)] *)
Definition inv_series (fuel : nat) (coefs : list F) (param1 : Z) (arg tol : F)
  : Outcome F :=
  h <- _hyp2f1_from_coefs fuel coefs param1 arg tol ;;
  py_div 1.0 h.

(** *** [_blocking_prob_newton] *)

Fixpoint bp_newton_loop (fuel : nat) (iters : nat) (coefs : list F) (n_servers_ : Z)
    (y tol : F) (max_n_iters : Z) (n_iters : Z) (blocking_prob_ : F)
  : Outcome (Result F) :=
  match iters with
  | O => Ok (mkResult max_n_iters MAX_N_ITERS_REACHED (VFloat blocking_prob_))
  | S iters' =>
      let x := fadd blocking_prob_ y in
      f <- inv_series fuel coefs n_servers_ x tol ;;
      g <- inv_series fuel coefs n_servers_ (fadd x tol) tol ;;
      d <- py_div (fsub f g) tol ;;
      step <- py_div (fsub f blocking_prob_) (fadd d 1.0) ;;
      let blocking_prob_new := fadd blocking_prob_ step in
      if fle (fabs (fsub blocking_prob_ blocking_prob_new)) tol
      then Ok (mkResult n_iters OK (VFloat blocking_prob_new))
      else bp_newton_loop fuel iters' coefs n_servers_ y tol max_n_iters
             (n_iters + 1) blocking_prob_new
  end.

Definition _blocking_prob_newton (fuel : nat) (n_servers_ n_sources_ : Z)
    (total_traffic_ : F) (max_n_iters : Z) (tol : F) (initial_guess : option F)
  : Outcome (Result F) :=
  let initial_guess := match initial_guess with Some x => x | None => fdiv 1.0 2.0 end in
  coefs <- _hyp2f1_coefs fuel n_servers_ n_sources_ ;;
  r <- py_div (fofZ n_sources_) total_traffic_ ;;
  let y := fsub r 1.0 in
  bp_newton_loop fuel (range_len 1 (max_n_iters + 1)) coefs n_servers_ y tol
    max_n_iters 1 initial_guess.

(** *** [_blocking_prob_bisect] *)

Fixpoint bp_bisect_loop (fuel : nat) (iters : nat) (coefs : list F) (n_servers_ : Z)
    (y tol : F) (max_n_iters n_iters : Z) (lo hi : F) (last : option F)
  : Outcome (Result F) :=
  match iters with
  | O => v <- bound last ;; Ok (mkResult max_n_iters MAX_N_ITERS_REACHED (VFloat v))
  | S iters' =>
      let blocking_prob_ := fdiv (fadd lo hi) 2.0 in
      if fle (fdiv (fsub hi lo) 2.0) tol
      then Ok (mkResult n_iters OK (VFloat blocking_prob_))
      else
        v <- inv_series fuel coefs n_servers_ (fadd blocking_prob_ y) tol ;;
        if flt v blocking_prob_
        then bp_bisect_loop fuel iters' coefs n_servers_ y tol max_n_iters (n_iters + 1)
               lo blocking_prob_ (Some blocking_prob_)
        else bp_bisect_loop fuel iters' coefs n_servers_ y tol max_n_iters (n_iters + 1)
               blocking_prob_ hi (Some blocking_prob_)
  end.

Definition _blocking_prob_bisect (fuel : nat) (n_servers_ n_sources_ : Z)
    (total_traffic_ : F) (max_n_iters : Z) (tol : F) : Outcome (Result F) :=
  coefs <- _hyp2f1_coefs fuel n_servers_ n_sources_ ;;
  r <- py_div (fofZ n_sources_) total_traffic_ ;;
  let y := fsub r 1.0 in
  bp_bisect_loop fuel (range_len 1 (max_n_iters + 1)) coefs n_servers_ y tol
    max_n_iters 1 0.0 1.0 None.

(** *** [_blocking_prob_fixed_point] *)

Fixpoint bp_fixedp_loop (fuel : nat) (iters : nat) (coefs : list F) (n_servers_ : Z)
    (y tol : F) (max_n_iters n_iters : Z) (blocking_prob_ : F) : Outcome (Result F) :=
  match iters with
  | O => Ok (mkResult max_n_iters MAX_N_ITERS_REACHED (VFloat blocking_prob_))
  | S iters' =>
      blocking_prob_new <- inv_series fuel coefs n_servers_ (fadd blocking_prob_ y) tol ;;
      if fle (fabs (fsub blocking_prob_ blocking_prob_new)) tol
      then Ok (mkResult n_iters OK (VFloat blocking_prob_new))
      else bp_fixedp_loop fuel iters' coefs n_servers_ y tol max_n_iters (n_iters + 1)
             blocking_prob_new
  end.

Definition _blocking_prob_fixed_point (fuel : nat) (n_servers_ n_sources_ : Z)
    (total_traffic_ : F) (max_n_iters : Z) (tol : F) (initial_guess : option F)
  : Outcome (Result F) :=
  let initial_guess := match initial_guess with Some x => x | None => fdiv 1.0 2.0 end in
  coefs <- _hyp2f1_coefs fuel n_servers_ n_sources_ ;;
  r <- py_div (fofZ n_sources_) total_traffic_ ;;
  let y := fsub r 1.0 in
  bp_fixedp_loop fuel (range_len 1 (max_n_iters + 1)) coefs n_servers_ y tol
    max_n_iters 1 initial_guess.

(** *** [_n_servers_bisect] *)

(** The test of one bisection step:
    [1.0 / _hyp2f1(n_servers_, n_sources_, y, tol) < blocking_prob_]. *)
Definition servers_test (fuel : nat) (blocking_prob_ : F) (n_sources_ : Z) (y tol : F)
    (n_servers_ : Z) : Outcome bool :=
  h <- _hyp2f1 fuel n_servers_ n_sources_ y tol ;;
  v <- py_div 1.0 h ;;
  Ok (flt v blocking_prob_).

Fixpoint n_servers_loop (fuel : nat) (iters : nat) (blocking_prob_ : F) (n_sources_ : Z)
    (y tol : F) (max_n_iters n_iters lo hi : Z) (last : option Z) : Outcome (Result F) :=
  match iters with
  | O => v <- bound last ;; Ok (mkResult max_n_iters MAX_N_ITERS_REACHED (VInt v))
  | S iters' =>
      if lo =? hi then Ok (mkResult n_iters OK (VInt lo))
      else
        let n_servers_ := (lo + hi) / 2 in
        t <- servers_test fuel blocking_prob_ n_sources_ y tol n_servers_ ;;
        if t
        then n_servers_loop fuel iters' blocking_prob_ n_sources_ y tol max_n_iters
               (n_iters + 1) lo n_servers_ (Some n_servers_)
        else n_servers_loop fuel iters' blocking_prob_ n_sources_ y tol max_n_iters
               (n_iters + 1) (n_servers_ + 1) hi (Some n_servers_)
  end.

Definition _n_servers_bisect (fuel : nat) (blocking_prob_ : F) (n_sources_ : Z)
    (total_traffic_ : F) (max_n_iters : Z) (tol : F) : Outcome (Result F) :=
  r <- py_div (fofZ n_sources_) total_traffic_ ;;
  let y := fsub (fadd blocking_prob_ r) 1.0 in
  n_servers_loop fuel (range_len 1 (max_n_iters + 1)) blocking_prob_ n_sources_ y tol
    max_n_iters 1 1 n_sources_ None.

(** *** [_n_sources_bisect] *)

(** [1.0 / _hyp2f1(n_servers_, n, y + n / total_traffic_, tol)]: the value
    both phases compute at a source count [n]. *)
Definition sources_value (fuel : nat) (n_servers_ : Z) (y total_traffic_ tol : F) (n : Z)
  : Outcome F :=
  r <- py_div (fofZ n) total_traffic_ ;;
  h <- _hyp2f1 fuel n_servers_ n (fadd y r) tol ;;
  py_div 1.0 h.

(** The stall test [abs(value - prev) <= abs(value) * tol]; [prev] is
    [np.nan] before the first step ([None]), and every comparison with
    NaN is false. *)
Definition stalled (value : F) (prev : option F) (tol : F) : bool :=
  match prev with
  | None => false
  | Some p => fle (fabs (fsub value p)) (fmul (fabs value) tol)
  end.

(** The exponential pre-phase: [inl r] is the early [return r], [inr (n, hi)]
    the [break] with [n_pre_iters = n]; [steps] bounds the [while True]
    loop, [fuel] the series computed at each step. *)
Fixpoint n_sources_pre (steps : nat) (fuel : nat) (blocking_prob_ : F) (n_servers_ : Z)
    (y total_traffic_ tol : F) (n_pre_iters : Z) (prev : option F) (hi : Z)
  : Outcome (Result F + (Z * Z)) :=
  match steps with
  | O => OutOfFuel
  | S steps' =>
      let n_pre_iters := n_pre_iters + 1 in
      value <- sources_value fuel n_servers_ y total_traffic_ tol hi ;;
      if fle blocking_prob_ value then Ok (inr (n_pre_iters, hi))
      else if stalled value prev tol
      then Ok (inl (mkResult n_pre_iters UNBOUNDED (VInt sys_maxsize)))
      else n_sources_pre steps' fuel blocking_prob_ n_servers_ y total_traffic_ tol n_pre_iters
             (Some value) (hi * 2)
  end.

(** [math.ceil((lo + hi) / 2)]; the float division of the int sum is
    exact while [lo + hi < 2^53]. *)
Definition ceil_half (s : Z) : Z := (s + 1) / 2.

Definition sources_test (fuel : nat) (blocking_prob_ : F) (n_servers_ : Z)
    (y total_traffic_ tol : F) (n : Z) : Outcome bool :=
  v <- sources_value fuel n_servers_ y total_traffic_ tol n ;;
  Ok (flt v blocking_prob_).

Fixpoint n_sources_loop (fuel : nat) (iters : nat) (blocking_prob_ : F) (n_servers_ : Z)
    (y total_traffic_ tol : F) (max_n_iters n_iters lo hi : Z) (last : option Z)
  : Outcome (Result F) :=
  match iters with
  | O => v <- bound last ;; Ok (mkResult max_n_iters MAX_N_ITERS_REACHED (VInt v))
  | S iters' =>
      if lo =? hi then Ok (mkResult n_iters OK (VInt lo))
      else
        let n_sources_ := ceil_half (lo + hi) in
        t <- sources_test fuel blocking_prob_ n_servers_ y total_traffic_ tol n_sources_ ;;
        if t
        then n_sources_loop fuel iters' blocking_prob_ n_servers_ y total_traffic_ tol
               max_n_iters (n_iters + 1) n_sources_ hi (Some n_sources_)
        else n_sources_loop fuel iters' blocking_prob_ n_servers_ y total_traffic_ tol
               max_n_iters (n_iters + 1) lo (n_sources_ - 1) (Some n_sources_)
  end.

Definition _n_sources_bisect (fuel : nat) (blocking_prob_ : F) (n_servers_ : Z)
    (total_traffic_ : F) (max_n_iters : Z) (tol : F) : Outcome (Result F) :=
  let y := fsub blocking_prob_ 1.0 in
  let lo := n_servers_ in
  let hi := lo * 2 in
  pre <- n_sources_pre fuel fuel blocking_prob_ n_servers_ y total_traffic_ tol 0 None hi ;;
  match pre with
  | inl r => Ok r
  | inr (n_pre_iters, hi) =>
      n_sources_loop fuel (range_len (n_pre_iters + 1) (max_n_iters + 1)) blocking_prob_
        n_servers_ y total_traffic_ tol max_n_iters (n_pre_iters + 1) lo hi None
  end.

(** *** [_total_traffic_bisect] *)

Fixpoint total_traffic_pre (steps : nat) (fuel : nat) (coefs : list F) (blocking_prob_ : F)
    (n_servers_ n_sources_ : Z) (y tol : F) (n_pre_iters : Z) (hi : F)
  : Outcome (Z * F) :=
  match steps with
  | O => OutOfFuel
  | S steps' =>
      let n_pre_iters := n_pre_iters + 1 in
      r <- py_div (fofZ n_sources_) hi ;;
      v <- inv_series fuel coefs n_servers_ (fadd y r) tol ;;
      if fle blocking_prob_ v then Ok (n_pre_iters, hi)
      else total_traffic_pre steps' fuel coefs blocking_prob_ n_servers_ n_sources_ y tol
             n_pre_iters (fmul hi 2.0)
  end.

Fixpoint total_traffic_loop (fuel : nat) (iters : nat) (coefs : list F)
    (blocking_prob_ : F) (n_servers_ n_sources_ : Z) (y tol : F)
    (max_n_iters n_iters : Z) (lo hi : F) (last : option F) : Outcome (Result F) :=
  match iters with
  | O => v <- bound last ;; Ok (mkResult max_n_iters MAX_N_ITERS_REACHED (VFloat v))
  | S iters' =>
      let total_traffic_ := fdiv (fadd lo hi) 2.0 in
      if fle (fdiv (fsub hi lo) 2.0) tol
      then Ok (mkResult n_iters OK (VFloat total_traffic_))
      else
        r <- py_div (fofZ n_sources_) total_traffic_ ;;
        v <- inv_series fuel coefs n_servers_ (fadd y r) tol ;;
        if flt v blocking_prob_
        then total_traffic_loop fuel iters' coefs blocking_prob_ n_servers_ n_sources_ y tol
               max_n_iters (n_iters + 1) total_traffic_ hi (Some total_traffic_)
        else total_traffic_loop fuel iters' coefs blocking_prob_ n_servers_ n_sources_ y tol
               max_n_iters (n_iters + 1) lo total_traffic_ (Some total_traffic_)
  end.

Definition _total_traffic_bisect (fuel : nat) (blocking_prob_ : F) (n_servers_ n_sources_ : Z)
    (max_n_iters : Z) (tol : F) : Outcome (Result F) :=
  coefs <- _hyp2f1_coefs fuel n_servers_ n_sources_ ;;
  let y := fsub blocking_prob_ 1.0 in
  let lo := 0.0 in
  let hi := fofZ n_sources_ in
  pre <- total_traffic_pre fuel fuel coefs blocking_prob_ n_servers_ n_sources_ y tol 0 hi ;;
  let '(n_pre_iters, hi) := pre in
  total_traffic_loop fuel (range_len (n_pre_iters + 1) (max_n_iters + 1)) coefs
    blocking_prob_ n_servers_ n_sources_ y tol max_n_iters (n_pre_iters + 1) lo hi None.

(** *** [_total_traffic_newton] *)

Fixpoint tt_newton_loop (fuel : nat) (iters : nat) (coefs : list F) (blocking_prob_ : F)
    (n_servers_ n_sources_ : Z) (y tol : F) (max_n_iters n_iters : Z) (total_traffic_ : F)
  : Outcome (Result F) :=
  match iters with
  | O => Ok (mkResult max_n_iters MAX_N_ITERS_REACHED (VFloat total_traffic_))
  | S iters' =>
      let h := fmul total_traffic_ tol in
      r1 <- py_div (fofZ n_sources_) total_traffic_ ;;
      f <- inv_series fuel coefs n_servers_ (fadd y r1) tol ;;
      r2 <- py_div (fofZ n_sources_) (fadd total_traffic_ h) ;;
      g <- inv_series fuel coefs n_servers_ (fadd y r2) tol ;;
      dtotal_traffic <- py_div (fsub f g) h ;;
      if feq dtotal_traffic 0.0
      then Ok (mkResult n_iters UNSTABLE (VFloat total_traffic_))
      else
        step <- py_div (fsub f blocking_prob_) dtotal_traffic ;;
        let total_traffic_new := fadd total_traffic_ step in
        rel <- py_div (fabs (fsub total_traffic_ total_traffic_new)) (fabs total_traffic_new) ;;
        if fle rel tol
        then Ok (mkResult n_iters OK (VFloat total_traffic_new))
        else tt_newton_loop fuel iters' coefs blocking_prob_ n_servers_ n_sources_ y tol
               max_n_iters (n_iters + 1) total_traffic_new
  end.

Definition _total_traffic_newton (fuel : nat) (blocking_prob_ : F) (n_servers_ n_sources_ : Z)
    (max_n_iters : Z) (tol : F) (initial_guess : option F) : Outcome (Result F) :=
  let initial_guess := match initial_guess with Some x => x | None => 1.0 end in
  coefs <- _hyp2f1_coefs fuel n_servers_ n_sources_ ;;
  let y := fsub blocking_prob_ 1.0 in
  tt_newton_loop fuel (range_len 1 (max_n_iters + 1)) coefs blocking_prob_ n_servers_
    n_sources_ y tol max_n_iters 1 initial_guess.

(** ** Argument validation and the public entry points *)

(** A count argument: a Python int or a float. *)
Inductive PyNum :=
| PInt (z : Z)
| PFloat (x : F).

Definition num_exact (a : PyNum) : ExactFloat :=
  match a with PInt z => XFin (inject_Z z) | PFloat x => fexact x end.

(** Python's mixed int/float comparison [a <= b] is exact. *)
Definition num_le (a b : PyNum) : bool := XF.le (num_exact a) (num_exact b).

(** [a % 1 != 0]: true for NaN and infinities (their [% 1] is NaN). *)
Definition num_mod1_nonzero (a : PyNum) : bool :=
  match num_exact a with
  | XFin q => negb (Z.rem (Qnum q) (Zpos (Qden q)) =? 0)
  | _ => true
  end.

(** [int(a)]: truncation toward zero; NaN and infinities raise. *)
Definition py_int (a : PyNum) : Outcome Z :=
  match num_exact a with
  | XNaN => Raise ValueError
  | XInf _ => Raise OverflowError
  | XFin q => Ok (Z.quot (Qnum q) (Zpos (Qden q)))
  end.

(** [_validate_args]; the final warning only logs. *)
Definition _validate_args (blocking_prob_ : F) (n_servers_ n_sources_ : PyNum)
    (total_traffic_ : F) : Outcome unit :=
  if fle blocking_prob_ 0.0 || fle 1.0 blocking_prob_ then Raise ValueError
  else if num_le n_servers_ (PInt 0) || num_mod1_nonzero n_servers_ then Raise ValueError
  else if num_le n_sources_ n_servers_ || num_mod1_nonzero n_sources_ then Raise ValueError
  else if fle total_traffic_ 0.0 then Raise ValueError
  else Ok tt.

Definition when_check (check : bool) (v : Outcome unit) : Outcome unit :=
  if check then v else Ok tt.

(** Calling a routine without an [initial_guess] parameter with
    [**kwargs] holding one raises [TypeError]. *)
Definition no_kwargs (kwargs : option F) : Outcome unit :=
  match kwargs with None => Ok tt | Some _ => Raise TypeError end.

Definition blocking_prob (fuel : nat) (n_servers n_sources : PyNum) (total_traffic : F)
    (alg : Selector) (max_n_iters : Z) (tol : F) (check : bool) (kwargs : option F)
  : Outcome (Result F) :=
  _ <- when_check check (_validate_args (fdiv 1.0 2.0) n_servers n_sources total_traffic) ;;
  m <- py_int n_servers ;;
  n <- py_int n_sources ;;
  match alg with
  | Alg BISECT => _ <- no_kwargs kwargs ;; _blocking_prob_bisect fuel m n total_traffic max_n_iters tol
  | Alg FIXEDP => _blocking_prob_fixed_point fuel m n total_traffic max_n_iters tol kwargs
  | Alg NEWTON => _blocking_prob_newton fuel m n total_traffic max_n_iters tol kwargs
  | NotAnAlgorithm => Raise ValueError
  end.

Definition n_servers (fuel : nat) (blocking_prob : F) (n_sources : PyNum) (total_traffic : F)
    (alg : Selector) (max_n_iters : Z) (tol : F) (check : bool) (kwargs : option F)
  : Outcome (Result F) :=
  _ <- when_check check (_validate_args blocking_prob (PInt 1) n_sources total_traffic) ;;
  n <- py_int n_sources ;;
  match alg with
  | Alg BISECT => _ <- no_kwargs kwargs ;; _n_servers_bisect fuel blocking_prob n total_traffic max_n_iters tol
  | _ => Raise ValueError
  end.

Definition n_sources (fuel : nat) (blocking_prob : F) (n_servers : PyNum) (total_traffic : F)
    (alg : Selector) (max_n_iters : Z) (tol : F) (check : bool) (kwargs : option F)
  : Outcome (Result F) :=
  _ <- when_check check (_validate_args blocking_prob n_servers (PInt sys_maxsize) total_traffic) ;;
  m <- py_int n_servers ;;
  match alg with
  | Alg BISECT => _ <- no_kwargs kwargs ;; _n_sources_bisect fuel blocking_prob m total_traffic max_n_iters tol
  | _ => Raise ValueError
  end.

Definition total_traffic (fuel : nat) (blocking_prob : F) (n_servers n_sources : PyNum)
    (alg : Selector) (max_n_iters : Z) (tol : F) (check : bool) (kwargs : option F)
  : Outcome (Result F) :=
  _ <- when_check check (_validate_args blocking_prob n_servers n_sources 1.0) ;;
  m <- py_int n_servers ;;
  n <- py_int n_sources ;;
  match alg with
  | Alg BISECT => _ <- no_kwargs kwargs ;; _total_traffic_bisect fuel blocking_prob m n max_n_iters tol
  | Alg NEWTON => _total_traffic_newton fuel blocking_prob m n max_n_iters tol kwargs
  | _ => Raise ValueError
  end.

(** Default arguments: [max_n_iters = 1024], [tol = 2 ** -24]. *)
Definition default_max_n_iters : Z := 1024.
Definition default_tol : F := fdiv 1.0 (fofZ (2 ^ 24)).

End Code.

(** ** Properties stated by the specification *)

(** The value of a [Result] as a float, when it is one. *)
Definition float_value {F} (o : Outcome (Result F)) : option F :=
  match o with
  | Ok r => match value r with VFloat x => Some x | VInt _ => None end
  | _ => None
  end.

(** The blocking probability computed at [m] servers by the public entry
    point with its default arguments. *)
Definition blocking_prob_at {F} `{PyFloat F} (fuel : nat) (m N : Z) (E : F) : option F :=
  float_value (blocking_prob fuel (PInt m) (PInt N) E (Alg NEWTON) default_max_n_iters
                 default_tol true None).

(** Minimum-servers property of the servers solve, as the specification
    states it: [blocking_prob(m, N, E) <= P < blocking_prob(m - 1, N, E)]. *)
Definition min_servers_property {F} `{PyFloat F} (fuel : nat) (P : F) (N : Z) (E : F) : Prop :=
  forall r m,
    n_servers fuel P (PInt N) E (Alg BISECT) default_max_n_iters default_tol true None = Ok r ->
    status r = OK -> value r = VInt m ->
    (exists b, blocking_prob_at fuel m N E = Some b /\ fle b P = true) /\
    (1 < m -> exists b, blocking_prob_at fuel (m - 1) N E = Some b /\ flt P b = true).


(** The test the servers solve applies at a server count [m]:
    [1.0 / _hyp2f1(m, N, P + N / E - 1.0, tol) < P]. *)
Definition servers_check {F} `{PyFloat F} (fuel : nat) (P : F) (N : Z) (E tol : F) (m : Z)
  : Outcome bool :=
  r <- py_div (fofZ N) E ;;
  servers_test fuel P N (fsub (fadd P r) (fofZ 1)) tol m.

(** The test the sources solve applies at a source count [n]:
    [1.0 / _hyp2f1(m, n, P - 1.0 + n / E, tol) < P]. *)
Definition sources_check {F} `{PyFloat F} (fuel : nat) (P : F) (m : Z) (E tol : F) (n : Z)
  : Outcome bool :=
  sources_test fuel P m (fsub P (fofZ 1)) E tol n.

Definition is_integer (q : Q) : Prop := exists z : Z, (q == inject_Z z)%Q.

(** Arguments [_validate_args] lets through, on their exact values: a
    blocking probability in (0,1) or NaN, a total traffic above 0 or NaN. *)
Definition accepted_prob (x : ExactFloat) : Prop :=
  match x with XNaN => True | XInf _ => False | XFin q => (0 < q /\ q < 1)%Q end.

Definition accepted_traffic (x : ExactFloat) : Prop :=
  match x with XNaN => True | XInf neg => neg = false | XFin q => (0 < q)%Q end.

(** A count argument whose value is the integer [z]. *)
Definition int_count {F} `{PyFloat F} (a : @PyNum F) (z : Z) : Prop :=
  exists q, num_exact a = XFin q /\ (q == inject_Z z)%Q.

(** With [check=False] no usage error is raised for malformed arguments. *)
Definition no_usage_error {A} (o : Outcome A) : Prop := o <> Raise ValueError.


(** The coefficient recurrence of the specification, with the operations
    of the code: [c_0 = 1.0], [c_k = (f / g) * c_(k-1)] where
    [f = m - k + 1] and [g = N - m + k - 1] are the loop's two counters. *)
Fixpoint coef {F} `{PyFloat F} (m N : Z) (k : nat) : F :=
  match k with
  | O => fofZ 1
  | S k' => fmul (fdiv (fofZ (m - Z.of_nat k')) (fofZ (N - m + Z.of_nat k'))) (coef m N k')
  end.

(** ** Concrete inputs in binary64 *)

Local Open Scope float_scope.

(** [0x1.515cb8a0c07b7p-1] is the float printed as [0.65891053163817659]. *)
Definition P_boundary : float := 0x1.515cb8a0c07b7p-1.

(** The values the sources pre-phase computes for [P = 0.75],
    [n_servers = 1], [total_traffic = 1.0] at its steps [j]. *)
Definition stall_example_value (j : nat) : float :=
  match sources_value 2000 1 (fsub 0.75%float (fofZ 1)) 1%float default_tol
          (1 * 2 * 2 ^ Z.of_nat j) with
  | Ok x => x
  | _ => nan
  end.

Local Close Scope float_scope.

(** * Theorems *)

(** Checks a statement about [j] for every [j] up to the bound its
    hypothesis gives, by evaluation. *)
Ltac check_each_index :=
  let j := fresh "j" in
  let Hj := fresh "Hj" in
  intros j Hj;
  repeat (destruct j as [|j]; [vm_compute; (reflexivity || lia) | try lia]).

(** C1 (code_bug evidence): with [max_n_iters = 1], the sources solve runs
    its uncapped doubling pre-phase for 23 steps and returns
    [n_iters = 23 > max_n_iters]. *)
Lemma n_sources_pre_phase_exceeds_cap :
  n_sources 2000 0.75%float (PInt 1) 1%float (Alg BISECT) 1 default_tol true None
  = Ok (mkResult 23 UNBOUNDED (VInt sys_maxsize)).
Proof. vm_compute. reflexivity. Qed.

(** C2 (code_bug evidence): the blocking-probability Newton step divides by
    [(f - g) / tol + 1.0] without the zero check of the total-traffic
    variant; at [initial_guess = -2.0], [tol = 2.0] that estimate is exactly
    [0.0] and the call raises [ZeroDivisionError]. *)
Lemma blocking_prob_newton_zero_derivative_raises :
  blocking_prob 2000 (PInt 1) (PInt 2) 2%float (Alg NEWTON) 1024 2%float true (Some (-2)%float)
  = Raise ZeroDivisionError.
Proof. vm_compute. reflexivity. Qed.

(** C3 (code_bug evidence): when the pre-phase uses up the budget the main
    loop never runs, and [return _Result(..., value=n_sources_)] (resp.
    [total_traffic_]) reads an unassigned local. *)
Lemma pre_phase_consumes_budget_unbound :
  n_sources 2000 0.5%float (PInt 1) 4%float (Alg BISECT) 1 default_tol true None
    = Raise UnboundLocalError /\
  total_traffic 2000 0.5%float (PInt 1) (PInt 2) (Alg BISECT) 1 default_tol true None
    = Raise UnboundLocalError.
Proof. split; vm_compute; reflexivity. Qed.

(** C4 (code_bug evidence): [_validate_args] rejects a blocking probability
    by [blocking_prob <= 0.0 or blocking_prob >= 1.0], and both comparisons
    are False for NaN. So a NaN blocking probability passes the checks of
    [n_servers], [n_sources] and [total_traffic], although the error message
    asks for a value strictly between 0 and 1, and [n_servers] returns a
    result for it. *)
Lemma nan_blocking_prob_passes_validation :
  _validate_args nan (PInt 1) (PInt 10) 2%float = Ok tt /\
  _validate_args nan (PInt 1) (PInt sys_maxsize) 2%float = Ok tt /\
  _validate_args nan (PInt 1) (PInt 10) (fofZ 1) = Ok tt /\
  n_servers 2000 nan (PInt 10) 2%float (Alg BISECT) 1024 default_tol true None
    = Ok (mkResult 4 OK (VInt 10)).
Proof. repeat split; vm_compute; reflexivity. Qed.

(** C5 (counterexample): [P_boundary] is the value [blocking_prob(1, 10, 2.0)]
    returns; the servers solve at [P_boundary] answers [m = 2] with status
    OK, yet [P_boundary < blocking_prob(1, 10, 2.0)] is false. *)
Lemma min_servers_property_fails_at_boundary :
  ~ min_servers_property 2000 P_boundary 10 2%float.
Proof.
  intros Hprop.
  destruct (Hprop (mkResult 5 OK (VInt 2)) 2) as [_ H1];
    [vm_compute; reflexivity | reflexivity | reflexivity |].
  destruct H1 as [b [Hb Hlt]]; [lia |].
  vm_compute in Hb. injection Hb as <-. vm_compute in Hlt. discriminate.
Qed.

(** C10 (counterexample): with [check=False] a NaN server count still
    raises [ValueError], from [int(n_servers)]. *)
Lemma unchecked_nan_count_raises :
  ~ no_usage_error
      (blocking_prob 2000 (PFloat nan) (PInt 2) 2%float (Alg NEWTON) 1024 default_tol false None).
Proof. unfold no_usage_error. vm_compute. congruence. Qed.

(** ** Lists and numpy indexing *)

Lemma list_set_app_r {A} (l1 l2 : list A) j x :
  list_set (l1 ++ l2) (length l1 + j) x = l1 ++ list_set l2 j x.
Proof. induction l1 as [|a l1 IH]; simpl; [reflexivity | now rewrite IH]. Qed.

Lemma list_set_length {A} (l : list A) j x : length (list_set l j x) = length l.
Proof.
  revert j; induction l as [|a l IH]; intros [|j]; simpl; auto.
Qed.

Lemma np_index_in_range len i :
  0 <= i < len -> np_index len i = Some (Z.to_nat i).
Proof.
  intros Hi. unfold np_index.
  replace ((0 <=? i) && (i <? len))%bool with true; [reflexivity |].
  symmetry. apply andb_true_iff. split; [apply Z.leb_le | apply Z.ltb_lt]; lia.
Qed.

Section Coefs.
Context {F : Type} `{PyFloat F}.

Lemma np_get_in_range (a : list F) (i : Z) :
  0 <= i < Z.of_nat (length a) ->
  np_get a i = Ok (nth (Z.to_nat i) a (fofZ 0)).
Proof.
  intros Hi. unfold np_get. rewrite np_index_in_range by exact Hi.
  rewrite (nth_error_nth' a (fofZ 0)) by lia. reflexivity.
Qed.

Lemma np_set_in_range (a : list F) (i : Z) x :
  0 <= i < Z.of_nat (length a) ->
  np_set a i x = Ok (list_set a (Z.to_nat i) x).
Proof. intros Hi. unfold np_set. now rewrite np_index_in_range by exact Hi. Qed.

(** The array after the first [k] coefficients are written. *)
Definition coefs_prefix (m N : Z) (M k : nat) : list F :=
  map (coef m N) (seq 0 k) ++ repeat (fofZ 0) (S M - k).

Lemma coefs_prefix_length m N M k : (k <= S M)%nat -> length (coefs_prefix m N M k) = S M.
Proof.
  intros Hk. unfold coefs_prefix. rewrite length_app, length_map, length_seq, repeat_length. lia.
Qed.

Lemma coefs_prefix_nth m N M k j :
  (j < k)%nat -> nth j (coefs_prefix m N M k) (fofZ 0) = coef m N j.
Proof.
  intros Hj. unfold coefs_prefix. rewrite app_nth1 by (rewrite length_map, length_seq; lia).
  rewrite nth_indep with (d' := coef m N 0%nat) by (rewrite length_map, length_seq; lia).
  rewrite map_nth, seq_nth by lia. reflexivity.
Qed.

Lemma coefs_prefix_step m N M k :
  (k <= M)%nat ->
  list_set (coefs_prefix m N M k) k (coef m N k) = coefs_prefix m N M (S k).
Proof.
  intros Hk. unfold coefs_prefix.
  pose proof (list_set_app_r (map (coef m N) (seq 0 k)) (repeat (fofZ 0) (S M - k)) 0
                (coef m N k)) as E.
  rewrite length_map, length_seq, Nat.add_0_r in E. rewrite E.
  replace (S M - k)%nat with (S (S M - S k)) by lia.
  simpl list_set. rewrite (seq_S k 0), map_app, <- app_assoc. reflexivity.
Qed.

(** The [while True] loop of [_hyp2f1_coefs], from iteration [k] on: the
    denominator counter [g = N - m + k - 1] is at least [N - m >= 1], every
    index is inside the array, and the loop ends after [m - k + 1] more
    iterations with all coefficients written. *)
Lemma hyp2f1_coefs_loop_spec (m N : Z) (fuel : nat) (k : nat) :
  1 <= m < N ->
  (1 <= k <= Z.to_nat m)%nat ->
  (Z.to_nat m - k < fuel)%nat ->
  hyp2f1_coefs_loop fuel (m - Z.of_nat k + 1) (N - m + Z.of_nat k - 1) (Z.of_nat k)
    (coefs_prefix m N (Z.to_nat m) k)
  = Ok (coefs_prefix m N (Z.to_nat m) (S (Z.to_nat m))).
Proof.
  intros Hm Hk. revert k Hk.
  induction fuel as [|fuel IH]; intros k Hk Hfuel; [lia |].
  simpl.
  unfold py_int_div. replace (N - m + Z.of_nat k - 1 =? 0) with false
    by (symmetry; apply Z.eqb_neq; lia).
  simpl.
  rewrite np_get_in_range
    by (rewrite coefs_prefix_length by lia; lia).
  simpl.
  rewrite np_set_in_range
    by (rewrite coefs_prefix_length by lia; lia).
  simpl.
  rewrite coefs_prefix_nth by lia.
  replace (Z.to_nat (Z.of_nat k - 1)) with (pred k) by lia.
  replace (Z.to_nat (Z.of_nat k)) with k by lia.
  assert (Hc : fmul (fdiv (fofZ (m - Z.of_nat k + 1)) (fofZ (N - m + Z.of_nat k - 1)))
                 (coef m N (pred k)) = coef m N k).
  { destruct k as [|k']; [lia |]. simpl.
    do 2 f_equal; f_equal; lia. }
  rewrite Hc, coefs_prefix_step by lia.
  destruct (Z.eqb_spec (m - Z.of_nat k + 1 - 1) 0) as [Hz | Hz].
  - replace (S k) with (S (Z.to_nat m)) by lia. reflexivity.
  - replace (m - Z.of_nat k + 1 - 1) with (m - Z.of_nat (S k) + 1) by lia.
    replace (N - m + Z.of_nat k - 1 + 1) with (N - m + Z.of_nat (S k) - 1) by lia.
    replace (Z.of_nat k + 1) with (Z.of_nat (S k)) by lia.
    apply IH; lia.
Qed.

Lemma hyp2f1_coefs_spec (m N : Z) (fuel : nat) :
  1 <= m < N -> (Z.to_nat m <= fuel)%nat ->
  _hyp2f1_coefs fuel m N = Ok (map (coef m N) (seq 0 (S (Z.to_nat m)))).
Proof.
  intros Hm Hfuel. unfold _hyp2f1_coefs, np_zeros.
  replace (m + 1 <? 0) with false by (symmetry; apply Z.ltb_ge; lia).
  simpl.
  rewrite np_set_in_range by (rewrite repeat_length; lia).
  simpl. replace (Z.to_nat (m + 1)) with (S (S (Z.to_nat m) - 1)) by lia. simpl.
  pose proof (hyp2f1_coefs_loop_spec m N fuel 1 Hm ltac:(lia) ltac:(lia)) as Hl.
  unfold coefs_prefix in Hl. simpl in Hl.
  replace (m - 1 + 1) with m in Hl by lia.
  replace (N - m + 1 - 1) with (N - m) in Hl by lia.
  rewrite Nat.sub_diag, app_nil_r in Hl. exact Hl.
Qed.

End Coefs.

(** ** The coefficient computation *)

(** C7: for [n_servers >= 1] and [n_sources > n_servers], [_hyp2f1_coefs]
    returns one array, determined by [(n_servers, n_sources)] alone, of
    [n_servers + 1] coefficients with [c_0 = 1] and, for
    [1 <= k <= n_servers], [c_k = (n_servers - k + 1) / (n_sources - n_servers + k - 1) * c_(k-1)]
    (the division and product of the code's float arithmetic). *)
Theorem hyp2f1_coefs_recurrence {F} `{PyFloat F} (n_servers_ n_sources_ : Z) :
  1 <= n_servers_ < n_sources_ ->
  exists cs : list F,
    (forall fuel, (Z.to_nat n_servers_ <= fuel)%nat -> _hyp2f1_coefs fuel n_servers_ n_sources_ = Ok cs) /\
    Z.of_nat (length cs) = n_servers_ + 1 /\
    nth 0 cs (fofZ 0) = fofZ 1 /\
    forall k : nat, (1 <= k <= Z.to_nat n_servers_)%nat ->
      nth k cs (fofZ 0)
      = fmul (fdiv (fofZ (n_servers_ - Z.of_nat k + 1)) (fofZ (n_sources_ - n_servers_ + Z.of_nat k - 1)))
             (nth (k - 1) cs (fofZ 0)).
Proof.
  intros Hm.
  exists (map (coef n_servers_ n_sources_) (seq 0 (S (Z.to_nat n_servers_)))).
  split; [intros fuel Hf; now apply hyp2f1_coefs_spec |].
  split; [rewrite length_map, length_seq; lia |].
  split; [reflexivity |].
  intros k Hk.
  rewrite nth_indep with (d' := coef n_servers_ n_sources_ 0%nat) by (rewrite length_map, length_seq; lia).
  rewrite map_nth, seq_nth by lia.
  rewrite nth_indep with (d' := coef n_servers_ n_sources_ 0%nat) by (rewrite length_map, length_seq; lia).
  rewrite map_nth, seq_nth by lia.
  destruct k as [|k']; [lia |]. simpl. rewrite Nat.sub_0_r.
  do 2 f_equal; f_equal; lia.
Qed.

Lemma hyp2f1_coefs_recurrence_witness :
  1 <= 5 < 10 /\
  exists cs : list float,
    (forall fuel, (Z.to_nat 5 <= fuel)%nat -> _hyp2f1_coefs fuel 5 10 = Ok cs) /\
    Z.of_nat (length cs) = 5 + 1 /\
    nth 0 cs (fofZ 0) = fofZ 1 /\
    forall k : nat, (1 <= k <= Z.to_nat 5)%nat ->
      nth k cs (fofZ 0)
      = fmul (fdiv (fofZ (5 - Z.of_nat k + 1)) (fofZ (10 - 5 + Z.of_nat k - 1)))
             (nth (k - 1) cs (fofZ 0)).
Proof. split; [lia | apply hyp2f1_coefs_recurrence; lia]. Defined.

(** C8: for [n_servers >= 1] and [n_sources > n_servers], [_hyp2f1_coefs]
    has no failure mode: it raises neither [ZeroDivisionError] (the
    denominator counter [g] runs from [n_sources - n_servers >= 1] upward)
    nor [IndexError] (every write lands in the array of length
    [n_servers + 1]), and its loop stops after [n_servers] iterations. *)
Theorem hyp2f1_coefs_no_failure {F} `{PyFloat F} (n_servers_ n_sources_ : Z) :
  1 <= n_servers_ < n_sources_ ->
  forall fuel, (Z.to_nat n_servers_ <= fuel)%nat ->
  exists cs : list F, _hyp2f1_coefs fuel n_servers_ n_sources_ = Ok cs /\
                      Z.of_nat (length cs) = n_servers_ + 1.
Proof.
  intros Hm fuel Hf. eexists. split; [now apply hyp2f1_coefs_spec |].
  rewrite length_map, length_seq. lia.
Qed.

Lemma hyp2f1_coefs_no_failure_witness :
  exists cs : list float, _hyp2f1_coefs 5 5 10 = Ok cs /\ Z.of_nat (length cs) = 5 + 1.
Proof. apply (hyp2f1_coefs_no_failure 5 10); [lia | vm_compute; lia]. Defined.

(** ** The sources solve *)

Section SourcesPre.
Context {F : Type} `{PyFloat F}.
Variables (fuel : nat) (blocking_prob_ : F) (n_servers_ : Z) (y total_traffic_ tol : F).

(** The [prev] the stall test sees at step [j]. *)
Definition prev_at (prev0 : option F) (v : nat -> F) (j : nat) : option F :=
  match j with O => prev0 | S j' => Some (v j') end.

Lemma n_sources_pre_unbounded (K : nat) :
  forall (v : nat -> F) steps n_pre prev0 hi0,
  (K < steps)%nat ->
  (forall j, (j <= K)%nat ->
     sources_value fuel n_servers_ y total_traffic_ tol (hi0 * 2 ^ Z.of_nat j) = Ok (v j)) ->
  (forall j, (j <= K)%nat -> fle blocking_prob_ (v j) = false) ->
  (forall j, (j < K)%nat -> stalled (v j) (prev_at prev0 v j) tol = false) ->
  stalled (v K) (prev_at prev0 v K) tol = true ->
  n_sources_pre steps fuel blocking_prob_ n_servers_ y total_traffic_ tol n_pre prev0 hi0
  = Ok (inl (mkResult (n_pre + Z.of_nat K + 1) UNBOUNDED (VInt sys_maxsize))).
Proof.
  induction K as [|K IH]; intros v steps n_pre prev0 hi0 Hsteps Hval Hbr Hst HK;
    destruct steps as [|steps]; try lia; simpl.
  - pose proof (Hval 0%nat (le_n _)) as E0. simpl in E0. rewrite Z.mul_1_r in E0.
    rewrite E0. simpl. rewrite (Hbr 0%nat (le_n _)). simpl in HK. rewrite HK.
    do 3 f_equal. lia.
  - pose proof (Hval 0%nat ltac:(lia)) as E0. simpl in E0. rewrite Z.mul_1_r in E0.
    rewrite E0. simpl. rewrite (Hbr 0%nat ltac:(lia)).
    pose proof (Hst 0%nat ltac:(lia)) as S0. simpl in S0. rewrite S0.
    rewrite (IH (fun j => v (S j)) steps (n_pre + 1) (Some (v 0%nat)) (hi0 * 2)).
    + do 3 f_equal. lia.
    + lia.
    + intros j Hj. rewrite <- (Hval (S j)) by lia. f_equal.
      rewrite <- Z.mul_assoc, <- Z.pow_succ_r by lia. f_equal. f_equal. lia.
    + intros j Hj. apply Hbr. lia.
    + intros [|j] Hj; simpl; [apply (Hst 1%nat) | apply (Hst (S (S j)))]; lia.
    + destruct K; exact HK.
Qed.

End SourcesPre.

(** C6: the pre-phase of the sources solve evaluates
    [1.0 / _hyp2f1(n_servers, hi, P - 1 + hi / E, tol)] at
    [hi = n_servers * 2 * 2^j], [j = 0, 1, ...]; if no value reaches the
    target [P] up to step [K] and the first stall, where two successive
    values differ by at most [tol] relative to the latest one, happens at
    step [K >= 1], the solve returns at once with status UNBOUNDED, value
    [sys.maxsize] and [n_iters = K + 1], the number of pre-phase steps. *)
Theorem n_sources_unbounded_on_stall {F} `{PyFloat F} (fuel : nat) (P : F) (n_servers_ : Z)
    (E : F) (max_n_iters : Z) (tol : F) (K : nat) (v : nat -> F) :
  (K < fuel)%nat ->
  (forall j, (j <= K)%nat ->
     sources_value fuel n_servers_ (fsub P (fofZ 1)) E tol (n_servers_ * 2 * 2 ^ Z.of_nat j)
     = Ok (v j)) ->
  (forall j, (j <= K)%nat -> fle P (v j) = false) ->
  (forall j, (1 <= j < K)%nat ->
     fle (fabs (fsub (v j) (v (j - 1)%nat))) (fmul (fabs (v j)) tol) = false) ->
  (1 <= K)%nat ->
  fle (fabs (fsub (v K) (v (K - 1)%nat))) (fmul (fabs (v K)) tol) = true ->
  _n_sources_bisect fuel P n_servers_ E max_n_iters tol
  = Ok (mkResult (Z.of_nat K + 1) UNBOUNDED (VInt sys_maxsize)).
Proof.
  intros Hf Hval Hbr Hst HK1 HK. unfold _n_sources_bisect.
  rewrite (n_sources_pre_unbounded fuel P n_servers_ (fsub P (fofZ 1)) E tol K v fuel 0 None
             (n_servers_ * 2)); auto.
  intros [|j] Hj; [reflexivity |]. simpl.
  pose proof (Hst (S j) ltac:(lia)) as Sj. simpl in Sj. rewrite Nat.sub_0_r in Sj. exact Sj.
  destruct K as [|K]; [lia |]. simpl. simpl in HK. rewrite Nat.sub_0_r in HK. exact HK.
Qed.

Lemma n_sources_unbounded_on_stall_witness :
  _n_sources_bisect 2000 0.75%float 1 1%float 1 default_tol
  = Ok (mkResult (Z.of_nat 22 + 1) UNBOUNDED (VInt sys_maxsize)).
Proof.
  apply (n_sources_unbounded_on_stall 2000 0.75%float 1 1%float 1 default_tol 22
           stall_example_value).
  - lia.
  - check_each_index.
  - check_each_index.
  - check_each_index.
  - lia.
  - vm_compute. reflexivity.
Defined.

(** ** The continuous bisection for the blocking probability *)

Section BisectBounds.
Context {F : Type} `{PyFloat F}.

(** The laws of the float arithmetic the invariant rests on: [<=] is
    transitive, and the computed midpoint [(lo + hi) / 2.0] of a bracket
    inside [[0, 1]] lies between its ends (true of binary64 rounding, which
    is monotone, and of exact arithmetic). *)
Hypothesis fle_trans : forall a b c, fle a b = true -> fle b c = true -> fle a c = true.
Hypothesis mid_between : forall lo hi,
  fle (fofZ 0) lo = true -> fle lo hi = true -> fle hi (fofZ 1) = true ->
  fle lo (fdiv (fadd lo hi) (fofZ 2)) = true /\ fle (fdiv (fadd lo hi) (fofZ 2)) hi = true.
Hypothesis unit_bounds :
  fle (fofZ 0) (fofZ 0) = true /\ fle (fofZ 0) (fofZ 1) = true /\ fle (fofZ 1) (fofZ 1) = true.

Definition in_unit (x : F) : Prop := fle (fofZ 0) x = true /\ fle x (fofZ 1) = true.

Lemma bp_bisect_loop_in_unit fuel iters coefs n_servers_ y tol max_n_iters :
  forall n_iters lo hi last r,
  fle (fofZ 0) lo = true -> fle lo hi = true -> fle hi (fofZ 1) = true ->
  (forall v, last = Some v -> in_unit v) ->
  bp_bisect_loop fuel iters coefs n_servers_ y tol max_n_iters n_iters lo hi last = Ok r ->
  exists v, value r = VFloat v /\ in_unit v.
Proof.
  induction iters as [|iters IH]; intros n_iters lo hi last r H0 Hlh H1 Hlast Hrun; simpl in Hrun.
  - destruct last as [v|]; simpl in Hrun; [| discriminate].
    injection Hrun as <-. exists v. split; [reflexivity | now apply Hlast].
  - destruct (mid_between lo hi H0 Hlh H1) as [Hlm Hmh].
    assert (Hm : in_unit (fdiv (fadd lo hi) (fofZ 2)))
      by (split; eauto).
    destruct (fle (fdiv (fsub hi lo) (fofZ 2)) tol).
    + injection Hrun as <-. exists (fdiv (fadd lo hi) (fofZ 2)). split; [reflexivity | exact Hm].
    + destruct (inv_series fuel coefs n_servers_ (fadd (fdiv (fadd lo hi) (fofZ 2)) y) tol)
        as [v| |]; simpl in Hrun; try discriminate.
      destruct (flt v (fdiv (fadd lo hi) (fofZ 2))).
      * eapply IH; [exact H0 | exact Hlm | apply Hm | | exact Hrun].
        intros w Hw; injection Hw as <-; exact Hm.
      * eapply IH; [apply Hm | exact Hmh | exact H1 | | exact Hrun].
        intros w Hw; injection Hw as <-; exact Hm.
Qed.

End BisectBounds.

(** C9: the bisection for the blocking probability keeps
    [0 <= lo <= hi <= 1]; whatever its status, a result it returns carries a
    float value in [[0, 1]]. *)
Theorem blocking_prob_bisect_in_unit_interval {F} `{PyFloat F}
    (fle_trans : forall a b c, fle a b = true -> fle b c = true -> fle a c = true)
    (mid_between : forall lo hi,
       fle (fofZ 0) lo = true -> fle lo hi = true -> fle hi (fofZ 1) = true ->
       fle lo (fdiv (fadd lo hi) (fofZ 2)) = true /\ fle (fdiv (fadd lo hi) (fofZ 2)) hi = true)
    (unit_bounds :
       fle (fofZ 0) (fofZ 0) = true /\ fle (fofZ 0) (fofZ 1) = true /\ fle (fofZ 1) (fofZ 1) = true)
    (fuel : nat) (n_servers_ n_sources_ : Z) (total_traffic_ : F) (max_n_iters : Z) (tol : F)
    (r : Result F) :
  _blocking_prob_bisect fuel n_servers_ n_sources_ total_traffic_ max_n_iters tol = Ok r ->
  exists v, value r = VFloat v /\ fle (fofZ 0) v = true /\ fle v (fofZ 1) = true.
Proof.
  unfold _blocking_prob_bisect. intros Hrun.
  destruct (_hyp2f1_coefs fuel n_servers_ n_sources_) as [coefs| |]; simpl in Hrun; try discriminate.
  destruct (py_div (fofZ n_sources_) total_traffic_) as [q| |]; simpl in Hrun; try discriminate.
  destruct unit_bounds as [H00 [H01 H11]].
  eapply bp_bisect_loop_in_unit in Hrun; eauto. discriminate.
Qed.

(** The laws of C9 hold in exact arithmetic. *)
Lemma exact_fle_trans (a b c : ExactFloat) :
  fle a b = true -> fle b c = true -> fle a c = true.
Proof.
  simpl. destruct a as [|[]|qa], b as [|[]|qb], c as [|[]|qc]; simpl; try congruence.
  rewrite !Qle_bool_iff. apply Qle_trans.
Qed.

Lemma exact_mid_between (lo hi : ExactFloat) :
  fle (fofZ 0) lo = true -> fle lo hi = true -> fle hi (fofZ 1) = true ->
  fle lo (fdiv (fadd lo hi) (fofZ 2)) = true /\ fle (fdiv (fadd lo hi) (fofZ 2)) hi = true.
Proof.
  simpl. destruct lo as [|[]|a], hi as [|[]|b]; simpl; try congruence.
  rewrite !Qle_bool_iff. intros _ Hab _.
  unfold Qdiv. replace (Qinv (inject_Z 2)) with (1 # 2) by reflexivity.
  split; lra.
Qed.

Lemma blocking_prob_bisect_in_unit_interval_witness :
  _blocking_prob_bisect 100 1 2 (XFin 1) 8 (XFin (1 # 16)) = Ok (mkResult 4 OK (VFloat (XFin (28 # 64)))) /\
  exists v, value (mkResult 4 OK (VFloat (XFin (28 # 64)))) = VFloat v /\
            fle (fofZ 0) v = true /\ fle v (fofZ 1) = true.
Proof.
  split; [vm_compute; reflexivity |].
  apply (blocking_prob_bisect_in_unit_interval exact_fle_trans exact_mid_between
           (conj eq_refl (conj eq_refl eq_refl)) 100 1 2 (XFin 1) 8 (XFin (1 # 16))).
  vm_compute. reflexivity.
Defined.

(** ** Argument validation *)

Section Validation.

Lemma validate_only_value_error {F} `{PyFloat F} bp ns nsrc E :
  _validate_args bp ns nsrc E = Ok tt \/ _validate_args bp ns nsrc E = Raise ValueError.
Proof.
  unfold _validate_args.
  destruct (_ || _); [now right |].
  destruct (_ || _); [now right |].
  destruct (_ || _); [now right |].
  destruct (fle E _); [now right | now left].
Qed.

Lemma py_int_of_integral {F} `{PyFloat F} (a : PyNum) :
  num_mod1_nonzero a = false -> exists z, py_int a = Ok z.
Proof.
  unfold num_mod1_nonzero, py_int. destruct (num_exact a); try discriminate. eauto.
Qed.

Lemma rem_zero_integer (q : Q) :
  Z.rem (Qnum q) (Zpos (Qden q)) = 0 -> is_integer q.
Proof.
  intros Hr. exists (Z.quot (Qnum q) (Zpos (Qden q))).
  unfold Qeq. simpl. rewrite Z.mul_1_r.
  pose proof (Z.quot_rem (Qnum q) (Zpos (Qden q)) ltac:(lia)) as E.
  rewrite Hr, Z.add_0_r in E. rewrite E at 1. lia.
Qed.

Lemma validate_ok_integral {F} `{PyFloat F} bp ns nsrc E :
  _validate_args bp ns nsrc E = Ok tt ->
  num_mod1_nonzero ns = false /\ num_mod1_nonzero nsrc = false.
Proof.
  unfold _validate_args.
  destruct (_ || _); [discriminate |].
  destruct (num_le ns (PInt 0) || num_mod1_nonzero ns)%bool eqn:E2; [discriminate |].
  destruct (num_le nsrc ns || num_mod1_nonzero nsrc)%bool eqn:E3; [discriminate |].
  intros _. apply orb_false_iff in E2, E3. tauto.
Qed.

End Validation.

(** ** The integer bisections *)

Section IntegerBisect.
Context {F : Type} `{PyFloat F}.

(** Invariant of the servers loop: [hi] is [n_sources_] or passes the
    test, [lo - 1] is [0] or fails it. *)
Lemma n_servers_loop_ok fuel P N y tol max_n_iters :
  forall iters n_iters lo hi last res m,
  (hi = N \/ servers_test fuel P N y tol hi = Ok true) ->
  (lo = 1 \/ servers_test fuel P N y tol (lo - 1) = Ok false) ->
  1 <= lo <= hi -> hi <= N ->
  n_servers_loop fuel iters P N y tol max_n_iters n_iters lo hi last = Ok res ->
  status res = OK -> value res = VInt m ->
  (1 <= m <= N) /\
  (m = N \/ servers_test fuel P N y tol m = Ok true) /\
  (m = 1 \/ servers_test fuel P N y tol (m - 1) = Ok false).
Proof.
  induction iters as [|iters IH]; intros n_iters lo hi last res m Hhi Hlo Hb HN Hrun Hst Hv;
    cbn [n_servers_loop] in Hrun.
  - destruct last; cbn in Hrun; [| discriminate]. injection Hrun as <-. discriminate.
  - destruct (lo =? hi) eqn:Heq.
    + apply Z.eqb_eq in Heq. subst hi. injection Hrun as <-. injection Hv as <-.
      repeat split; tauto || lia.
    + apply Z.eqb_neq in Heq.
      destruct (servers_test fuel P N y tol ((lo + hi) / 2)) as [[]| |] eqn:Ht;
        cbn [bind] in Hrun; try discriminate.
      * eapply IH; [right; exact Ht | exact Hlo | | | exact Hrun | exact Hst | exact Hv];
          Z.div_mod_to_equations; lia.
      * eapply IH; [exact Hhi | | | | exact Hrun | exact Hst | exact Hv];
          [| Z.div_mod_to_equations; lia ..].
        right. replace ((lo + hi) / 2 + 1 - 1) with ((lo + hi) / 2) by lia. exact Ht.
Qed.

(** The sources pre-phase breaks only at a bracket [hi] where the computed
    value reaches the target, and it never lowers [hi] below [n_servers_]. *)
Lemma n_sources_pre_bracket fuel P m y E tol :
  forall steps n_pre prev hi k hi0,
  0 <= m <= hi ->
  n_sources_pre steps fuel P m y E tol n_pre prev hi = Ok (inr (k, hi0)) ->
  m <= hi0 /\ exists v, sources_value fuel m y E tol hi0 = Ok v /\ fle P v = true.
Proof.
  induction steps as [|steps IH]; intros n_pre prev hi k hi0 Hb Hrun;
    cbn [n_sources_pre] in Hrun; [discriminate |].
  destruct (sources_value fuel m y E tol hi) as [v| |] eqn:Hv; cbn [bind] in Hrun;
    try discriminate.
  destruct (fle P v) eqn:Hf.
  - injection Hrun as _ <-. split; [lia | eauto].
  - destruct (stalled v prev tol); [discriminate |].
    eapply IH; [| exact Hrun]. lia.
Qed.

(** Invariant of the sources loop: [lo] is [n_servers_] or passes the
    test, [hi + 1] is one above the bracket or fails it. *)
Lemma n_sources_loop_ok fuel P m0 y E tol max_n_iters hi0 :
  forall iters n_iters lo hi last res n,
  (lo = m0 \/ sources_test fuel P m0 y E tol lo = Ok true) ->
  (hi = hi0 \/ sources_test fuel P m0 y E tol (hi + 1) = Ok false) ->
  m0 <= lo <= hi -> hi <= hi0 ->
  n_sources_loop fuel iters P m0 y E tol max_n_iters n_iters lo hi last = Ok res ->
  status res = OK -> value res = VInt n ->
  (m0 <= n <= hi0) /\
  (n = m0 \/ sources_test fuel P m0 y E tol n = Ok true) /\
  (n = hi0 \/ sources_test fuel P m0 y E tol (n + 1) = Ok false).
Proof.
  induction iters as [|iters IH]; intros n_iters lo hi last res n Hlo Hhi Hb H0 Hrun Hst Hv;
    cbn [n_sources_loop] in Hrun.
  - destruct last; cbn in Hrun; [| discriminate]. injection Hrun as <-. discriminate.
  - destruct (lo =? hi) eqn:Heq.
    + apply Z.eqb_eq in Heq. subst hi. injection Hrun as <-. injection Hv as <-.
      repeat split; tauto || lia.
    + apply Z.eqb_neq in Heq. unfold ceil_half in Hrun.
      destruct (sources_test fuel P m0 y E tol ((lo + hi + 1) / 2)) as [[]| |] eqn:Ht;
        cbn [bind] in Hrun; try discriminate.
      * eapply IH; [right; exact Ht | exact Hhi | | | exact Hrun | exact Hst | exact Hv];
          Z.div_mod_to_equations; lia.
      * eapply IH; [exact Hlo | | | | exact Hrun | exact Hst | exact Hv];
          [| Z.div_mod_to_equations; lia ..].
        right. replace ((lo + hi + 1) / 2 - 1 + 1) with ((lo + hi + 1) / 2) by lia. exact Ht.
Qed.

Lemma n_servers_bisect_ok fuel P N E max_n_iters tol res m :
  1 <= N ->
  _n_servers_bisect fuel P N E max_n_iters tol = Ok res ->
  status res = OK -> value res = VInt m ->
  (1 <= m <= N) /\
  (m = N \/ servers_check fuel P N E tol m = Ok true) /\
  (m = 1 \/ servers_check fuel P N E tol (m - 1) = Ok false).
Proof.
  intros HN Hrun Hst Hv. unfold _n_servers_bisect in Hrun. unfold servers_check.
  destruct (py_div (fofZ N) E) as [r| |]; cbn [bind] in Hrun |- *; try discriminate.
  eapply n_servers_loop_ok; [left | left | | | exact Hrun | exact Hst | exact Hv]; lia.
Qed.

Lemma n_sources_bisect_ok fuel P m E max_n_iters tol res n :
  0 <= m ->
  _n_sources_bisect fuel P m E max_n_iters tol = Ok res ->
  status res = OK -> value res = VInt n ->
  exists k hi0,
    n_sources_pre fuel fuel P m (fsub P (fofZ 1)) E tol 0 None (m * 2) = Ok (inr (k, hi0)) /\
    (exists v, sources_value fuel m (fsub P (fofZ 1)) E tol hi0 = Ok v /\ fle P v = true) /\
    (m <= n <= hi0) /\
    (n = m \/ sources_check fuel P m E tol n = Ok true) /\
    (n = hi0 \/ sources_check fuel P m E tol (n + 1) = Ok false).
Proof.
  intros Hm Hrun Hst Hv. unfold _n_sources_bisect in Hrun. unfold sources_check.
  destruct (n_sources_pre fuel fuel P m (fsub P (fofZ 1)) E tol 0 None (m * 2))
    as [[r | [k hi0]] | |] eqn:Hpre; cbn [bind] in Hrun; try discriminate.
  - exfalso. injection Hrun as <-.
    (* the pre-phase returns only UNBOUNDED results *)
    revert Hpre. generalize (m * 2) at 1 as hi. generalize (@None F) as prev.
    generalize 0 as n_pre. generalize fuel at 1 as steps.
    induction steps as [|steps IH]; intros n_pre prev hi Hpre; cbn [n_sources_pre] in Hpre;
      [discriminate |].
    destruct (sources_value _ _ _ _ _ hi); cbn [bind] in Hpre; try discriminate.
    destruct (fle _ _); [discriminate |].
    destruct (stalled _ _ _); [injection Hpre as <-; discriminate | exact (IH _ _ _ Hpre)].
  - destruct (n_sources_pre_bracket fuel P m _ E tol _ _ _ (m * 2) k hi0 ltac:(lia) Hpre)
      as [Hhi0 Hv0].
    exists k, hi0. split; [reflexivity |]. split; [exact Hv0 |].
    eapply n_sources_loop_ok; [left | left | | | exact Hrun | exact Hst | exact Hv]; lia.
Qed.

End IntegerBisect.

(** C5 (amended): when the servers solve returns [OK] with [m], then
    [1 <= m <= n_sources_], [m] is [n_sources_] or passes the code's own
    strict test [1.0 / _hyp2f1(m, N, P + N / E - 1.0, tol) < P], and [m] is
    [1] or [m - 1] fails that test.  When the sources solve returns [OK]
    with [n], its pre-phase stopped at a bracket [hi0] whose computed value
    reaches [P], [n_servers_ <= n <= hi0], [n] is [n_servers_] or passes
    the test [1.0 / _hyp2f1(m, n, P - 1.0 + n / E, tol) < P], and [n] is
    [hi0] or [n + 1] fails it.  These tests are evaluated by the solvers'
    own series, not by the blocking-probability entry point. *)
Theorem integer_solves_ok_boundary {F} `{PyFloat F} (fuel : nat) (P E tol : F)
    (N m max_n_iters : Z) (res : Result F) (k : Z) :
  (1 <= N ->
   _n_servers_bisect fuel P N E max_n_iters tol = Ok res ->
   status res = OK -> value res = VInt k ->
   (1 <= k <= N) /\
   (k = N \/ servers_check fuel P N E tol k = Ok true) /\
   (k = 1 \/ servers_check fuel P N E tol (k - 1) = Ok false)) /\
  (0 <= m ->
   _n_sources_bisect fuel P m E max_n_iters tol = Ok res ->
   status res = OK -> value res = VInt k ->
   exists n_pre hi0,
     n_sources_pre fuel fuel P m (fsub P (fofZ 1)) E tol 0 None (m * 2)
       = Ok (inr (n_pre, hi0)) /\
     (exists v, sources_value fuel m (fsub P (fofZ 1)) E tol hi0 = Ok v /\ fle P v = true) /\
     (m <= k <= hi0) /\
     (k = m \/ sources_check fuel P m E tol k = Ok true) /\
     (k = hi0 \/ sources_check fuel P m E tol (k + 1) = Ok false)).
Proof.
  split.
  - apply n_servers_bisect_ok.
  - apply n_sources_bisect_ok.
Qed.

Lemma integer_solves_ok_boundary_witness :
  ((1 <= 2 <= 10) /\
   (2 = 10 \/ servers_check 2000 P_boundary 10 2%float default_tol 2 = Ok true) /\
   (2 = 1 \/ servers_check 2000 P_boundary 10 2%float default_tol (2 - 1) = Ok false)) /\
  (exists n_pre hi0,
     n_sources_pre 2000 2000 0.015625%float 5 (fsub 0.015625%float (fofZ (F:=float) 1)) 2%float default_tol 0 None (5 * 2)
       = Ok (inr (n_pre, hi0)) /\
     (exists v, sources_value 2000 5 (fsub 0.015625%float (fofZ (F:=float) 1)) 2%float default_tol hi0 = Ok v /\
                fle 0.015625%float v = true) /\
     (5 <= 9 <= hi0) /\
     (9 = 5 \/ sources_check 2000 0.015625%float 5 2%float default_tol 9 = Ok true) /\
     (9 = hi0 \/ sources_check 2000 0.015625%float 5 2%float default_tol (9 + 1) = Ok false)).
Proof.
  split.
  - apply (proj1 (integer_solves_ok_boundary 2000 P_boundary 2%float default_tol 10 5 1024
                    (mkResult 5 OK (VInt 2)) 2)); [lia | vm_compute; reflexivity | reflexivity | reflexivity].
  - apply (proj2 (integer_solves_ok_boundary 2000 0.015625%float 2%float default_tol 10 5 1024
                    (mkResult 5 OK (VInt 9)) 9)); [lia | vm_compute; reflexivity | reflexivity | reflexivity].
Defined.

(** C10 (amended): with [check=False] no validation runs.  Each entry point
    converts its count arguments with [int()]: [n_servers] before
    [n_sources] where both are converted.  [int()] raises [ValueError] for a
    NaN count and [OverflowError] for an infinite one, and such an exception
    is the call's outcome.  When the counts convert to [m] and [n], the call
    is the routine of the selected algorithm applied to [m], [n] and the
    other arguments as given, whether or not they are malformed, and an
    unsupported selector raises [ValueError] at every entry point. *)
Theorem unchecked_entry_points_call_routine {F} `{PyFloat F} (fuel : nat)
    (ns nsrc : PyNum) (bp E tol : F) (max_n_iters : Z) (kwargs : option F) :
  (forall a : PyNum, num_exact a = XNaN -> py_int a = Raise ValueError) /\
  (forall (a : PyNum) s, num_exact a = XInf s -> py_int a = Raise OverflowError) /\
  (forall e alg, py_int ns = Raise e ->
     blocking_prob fuel ns nsrc E alg max_n_iters tol false kwargs = Raise e /\
     n_sources fuel bp ns E alg max_n_iters tol false kwargs = Raise e /\
     total_traffic fuel bp ns nsrc alg max_n_iters tol false kwargs = Raise e) /\
  (forall e alg, py_int nsrc = Raise e ->
     n_servers fuel bp nsrc E alg max_n_iters tol false kwargs = Raise e /\
     (forall m, py_int ns = Ok m ->
        blocking_prob fuel ns nsrc E alg max_n_iters tol false kwargs = Raise e /\
        total_traffic fuel bp ns nsrc alg max_n_iters tol false kwargs = Raise e)) /\
  (forall n, py_int nsrc = Ok n ->
     n_servers fuel bp nsrc E (Alg BISECT) max_n_iters tol false kwargs
       = (_ <- no_kwargs kwargs ;; _n_servers_bisect fuel bp n E max_n_iters tol) /\
     (forall alg, alg <> Alg BISECT ->
        n_servers fuel bp nsrc E alg max_n_iters tol false kwargs = Raise ValueError)) /\
  (forall m, py_int ns = Ok m ->
     n_sources fuel bp ns E (Alg BISECT) max_n_iters tol false kwargs
       = (_ <- no_kwargs kwargs ;; _n_sources_bisect fuel bp m E max_n_iters tol) /\
     (forall alg, alg <> Alg BISECT ->
        n_sources fuel bp ns E alg max_n_iters tol false kwargs = Raise ValueError)) /\
  (forall m n, py_int ns = Ok m -> py_int nsrc = Ok n ->
     blocking_prob fuel ns nsrc E (Alg BISECT) max_n_iters tol false kwargs
       = (_ <- no_kwargs kwargs ;; _blocking_prob_bisect fuel m n E max_n_iters tol) /\
     blocking_prob fuel ns nsrc E (Alg FIXEDP) max_n_iters tol false kwargs
       = _blocking_prob_fixed_point fuel m n E max_n_iters tol kwargs /\
     blocking_prob fuel ns nsrc E (Alg NEWTON) max_n_iters tol false kwargs
       = _blocking_prob_newton fuel m n E max_n_iters tol kwargs /\
     blocking_prob fuel ns nsrc E NotAnAlgorithm max_n_iters tol false kwargs = Raise ValueError /\
     total_traffic fuel bp ns nsrc (Alg BISECT) max_n_iters tol false kwargs
       = (_ <- no_kwargs kwargs ;; _total_traffic_bisect fuel bp m n max_n_iters tol) /\
     total_traffic fuel bp ns nsrc (Alg NEWTON) max_n_iters tol false kwargs
       = _total_traffic_newton fuel bp m n max_n_iters tol kwargs /\
     (forall alg, alg <> Alg BISECT -> alg <> Alg NEWTON ->
        total_traffic fuel bp ns nsrc alg max_n_iters tol false kwargs = Raise ValueError)).
Proof.
  unfold blocking_prob, n_servers, n_sources, total_traffic, when_check; cbn [bind].
  split; [intros a Ha; unfold py_int; now rewrite Ha |].
  split; [intros a s Ha; unfold py_int; now rewrite Ha |].
  split; [intros e alg He; rewrite He; repeat split |].
  split; [intros e alg He; rewrite He; split; [reflexivity | intros m Hm; rewrite Hm; now split] |].
  split.
  { intros n Hn. rewrite Hn. split; [reflexivity |].
    intros [[] |] Ha; congruence || reflexivity. }
  split.
  { intros m Hm. rewrite Hm. split; [reflexivity |].
    intros [[] |] Ha; congruence || reflexivity. }
  intros m n Hm Hn. rewrite Hm, Hn. repeat split.
  intros [[] |] Ha1 Ha2; congruence || reflexivity.
Qed.

Lemma unchecked_entry_points_call_routine_witness :
  py_int (F:=float) (PFloat nan) = Raise ValueError /\
  py_int (F:=float) (PFloat infinity) = Raise OverflowError /\
  blocking_prob 2000 (PFloat nan) (PInt 2) (-1)%float (Alg NEWTON) 1024 default_tol false None
    = Raise ValueError /\
  n_servers 2000 0.5%float (PFloat infinity) 2%float (Alg BISECT) 1024 default_tol false None
    = Raise OverflowError /\
  n_servers 2000 1.5%float (PInt 3) (-1)%float (Alg NEWTON) 1024 default_tol false None
    = Raise ValueError /\
  blocking_prob 2000 (PInt 3) (PInt 2) (-1)%float (Alg BISECT) 1024 default_tol false None
    = (_ <- no_kwargs (F:=float) None ;; _blocking_prob_bisect 2000 3 2 (-1)%float 1024 default_tol) /\
  n_sources 2000 1.5%float (PInt 3) (-1)%float (Alg BISECT) 1024 default_tol false None
    = (_ <- no_kwargs (F:=float) None ;; _n_sources_bisect 2000 1.5%float 3 (-1)%float 1024 default_tol).
Proof.
  destruct (unchecked_entry_points_call_routine 2000 (PInt 3) (PInt 2) 1.5%float (-1)%float
              default_tol 1024 None) as (_ & _ & _ & _ & _ & H6 & H7).
  destruct (unchecked_entry_points_call_routine 2000 (PFloat nan) (PFloat infinity) 0.5%float
              (-1)%float default_tol 1024 None) as (H1 & H2 & H3 & H4 & _).
  split; [apply H1; vm_compute; reflexivity |].
  split; [apply (H2 _ false); vm_compute; reflexivity |].
  split; [apply (H3 ValueError (Alg NEWTON)); vm_compute; reflexivity |].
  split.
  { destruct (unchecked_entry_points_call_routine 2000 (PInt 1) (PFloat infinity) 0.5%float
                2%float default_tol 1024 None) as (_ & _ & _ & H4' & _).
    apply (H4' OverflowError (Alg BISECT)); vm_compute; reflexivity. }
  split.
  { destruct (unchecked_entry_points_call_routine 2000 (PInt 1) (PInt 3) 1.5%float
                (-1)%float default_tol 1024 None) as (_ & _ & _ & _ & H5 & _).
    apply (proj2 (H5 3 eq_refl)). discriminate. }
  split; [apply (proj1 (H7 3 2 eq_refl eq_refl)) |].
  apply (proj1 (H6 3 eq_refl)).
Defined.

(** * Further properties of the code *)

(** ** Argument validation *)

Section ValidationExact.
Context {F : Type} `{PyFloat F}.

Lemma mod1_zero_iff (a : @PyNum F) :
  num_mod1_nonzero a = false <-> exists z, int_count a z.
Proof.
  unfold num_mod1_nonzero, int_count. split.
  - destruct (num_exact a) as [| |q]; try discriminate.
    intros Hr. apply negb_false_iff, Z.eqb_eq in Hr.
    destruct (rem_zero_integer q Hr) as [z Hz]. eauto.
  - intros (z & q & -> & Hq). apply negb_false_iff, Z.eqb_eq.
    unfold Qeq in Hq. simpl in Hq. rewrite Z.mul_1_r in Hq. rewrite Hq.
    apply Z.rem_mul. lia.
Qed.

Lemma int_count_le (a b : @PyNum F) x y :
  int_count a x -> int_count b y -> num_le a b = (x <=? y).
Proof.
  intros (qa & Ha & Hx) (qb & Hb & Hy). unfold num_le. rewrite Ha, Hb. simpl.
  destruct (Qle_bool qa qb) eqn:E; symmetry.
  - apply Z.leb_le. apply Qle_bool_iff in E. rewrite Zle_Qle.
    rewrite <- Hx, <- Hy. exact E.
  - apply Z.leb_gt. rewrite Zlt_Qlt, <- Hx, <- Hy.
    apply Qnot_le_lt. intros C. apply Qle_bool_iff in C. congruence.
Qed.

Lemma prob_check_iff (x : ExactFloat) :
  (XF.le x (XFin (inject_Z 0)) || XF.le (XFin (inject_Z 1)) x)%bool = false <->
  accepted_prob x.
Proof.
  destruct x as [|[]|q]; simpl; try (split; [discriminate | tauto]); try tauto.
  rewrite orb_false_iff, <- !not_true_iff_false, !Qle_bool_iff.
  split; intros [H1 H2]; split.
  - apply Qnot_le_lt. exact H1.
  - apply Qnot_le_lt. exact H2.
  - apply Qlt_not_le. exact H1.
  - apply Qlt_not_le. exact H2.
Qed.

Lemma traffic_check_iff (x : ExactFloat) :
  XF.le x (XFin (inject_Z 0)) = false <-> accepted_traffic x.
Proof.
  destruct x as [|[]|q]; simpl; try (split; [discriminate | tauto]); try tauto.
  rewrite <- not_true_iff_false, Qle_bool_iff. split.
  - apply Qnot_le_lt.
  - apply Qlt_not_le.
Qed.

(** [_validate_args] read on exact values, for a float type whose
    comparisons of a float with 0 and 1 are the exact ones. *)
Lemma validate_accepts_iff_exact (bp E : F) (ns nsrc : @PyNum F) :
  fle bp (fofZ 0) = XF.le (fexact bp) (XFin (inject_Z 0)) ->
  fle (fofZ 1) bp = XF.le (XFin (inject_Z 1)) (fexact bp) ->
  fle E (fofZ 0) = XF.le (fexact E) (XFin (inject_Z 0)) ->
  (_validate_args bp ns nsrc E = Ok tt <->
   accepted_prob (fexact bp) /\
   (exists m n, int_count ns m /\ int_count nsrc n /\ 1 <= m < n) /\
   accepted_traffic (fexact E)).
Proof.
  intros Hb0 Hb1 HE. unfold _validate_args.
  rewrite Hb0, Hb1, HE, <- prob_check_iff, <- traffic_check_iff.
  destruct (XF.le (fexact bp) _ || XF.le _ (fexact bp))%bool; [split; [intros Hc; discriminate Hc | intuition congruence] |].
  destruct (num_le ns (PInt 0) || num_mod1_nonzero ns)%bool eqn:E2.
  - split; [intros Hc; discriminate Hc |]. intros (_ & (m & n & Hm & Hn & Hlt) & _).
    assert (Hz : int_count (F:=F) (PInt 0) 0) by (exists 0%Q; split; reflexivity).
    assert (Hm1 : num_mod1_nonzero ns = false) by (apply mod1_zero_iff; eauto).
    rewrite (int_count_le _ _ _ _ Hm Hz), Hm1 in E2.
    apply orb_true_iff in E2 as [E2|E2]; [apply Z.leb_le in E2; lia | discriminate].
  - apply orb_false_iff in E2 as [E2a E2b].
    destruct (proj1 (mod1_zero_iff ns) E2b) as [m Hm].
    destruct (num_le nsrc ns || num_mod1_nonzero nsrc)%bool eqn:E3.
    + split; [intros Hc; discriminate Hc |]. intros (_ & (m' & n & Hm' & Hn & Hlt) & _).
      assert (Hn1 : num_mod1_nonzero nsrc = false) by (apply mod1_zero_iff; eauto).
      rewrite (int_count_le _ _ _ _ Hn Hm'), Hn1 in E3.
      apply orb_true_iff in E3 as [E3|E3]; [apply Z.leb_le in E3; lia | discriminate].
    + apply orb_false_iff in E3 as [E3a E3b].
      destruct (proj1 (mod1_zero_iff nsrc) E3b) as [n Hn].
      assert (Hz : int_count (F:=F) (PInt 0) 0) by (exists 0%Q; split; reflexivity).
      rewrite (int_count_le _ _ _ _ Hm Hz) in E2a.
      rewrite (int_count_le _ _ _ _ Hn Hm) in E3a.
      apply Z.leb_gt in E2a, E3a.
      destruct (XF.le (fexact E) _) eqn:E4.
      * split; [intros Hc; discriminate Hc | intuition congruence].
      * split; [intros _; split; [reflexivity |]; split; [| reflexivity] | reflexivity].
        exists m, n. repeat split; auto; lia.
Qed.

End ValidationExact.

Section Binary64Compare.

Lemma digits2_pos_bounds (m : positive) :
  2 ^ (Zpos (digits2_pos m) - 1) <= Zpos m < 2 ^ Zpos (digits2_pos m).
Proof.
  induction m as [m IH|m IH|]; cbn [digits2_pos].
  3: { vm_compute. split; congruence. }
  all: rewrite Pos2Z.inj_succ.
  all: pose proof (Pos2Z.is_pos (digits2_pos m)).
  all: pose proof (Pos2Z.inj_xI m); pose proof (Pos2Z.inj_xO m).
  all: set (d := Zpos (digits2_pos m)) in *.
  all: replace (Z.succ d - 1) with d by lia.
  all: rewrite Z.pow_succ_r by lia.
  all: assert (E : 2 ^ d = 2 * 2 ^ (d - 1)) by (rewrite <- Z.pow_succ_r by lia; f_equal; lia).
  all: lia.
Qed.

(** A finite binary64 mantissa has at most 53 bits, exactly 53 above the
    subnormal exponent. *)
Lemma finite_mantissa_bounds s m e :
  FloatAxioms.valid_binary (S754_finite s m e) = true ->
  Zpos m < 9007199254740992 /\ (-1074 < e -> 4503599627370496 <= Zpos m).
Proof.
  change 9007199254740992 with (2 ^ 53). change 4503599627370496 with (2 ^ 52).
  cbn [valid_binary]. unfold bounded, canonical_mantissa, fexp, emin, prec, emax.
  rewrite andb_true_iff, Z.eqb_eq. intros [Hc _].
  pose proof (digits2_pos_bounds m) as [Hl Hh].
  set (d := Zpos (digits2_pos m)) in *.
  assert (Hd : d <= 53 /\ (-1074 < e -> d = 53)) by
    (destruct (Z.max_spec (d + e - 53) (3 - 1024 - 53)) as [[? ?]|[? ?]]; lia).
  destruct Hd as [Hd1 Hd2]. split.
  - eapply Z.lt_le_trans; [exact Hh |]. apply Z.pow_le_mono_r; lia.
  - intros He. rewrite (Hd2 He) in Hl. exact Hl.
Qed.

(** Binary64 [x <= 0.0] and [1.0 <= x] are the exact comparisons. *)
Lemma leb_zero_exact (x : float) :
  PrimFloat.leb x (float_of_Z 0) = XF.le (exact_of_float x) (XFin (inject_Z 0)).
Proof.
  rewrite FloatAxioms.leb_spec. change (Prim2SF (float_of_Z 0)) with (S754_zero false).
  unfold exact_of_float, SFleb.
  destruct (Prim2SF x) as [[]|[]| |[] m [|p|p]]; try reflexivity;
    cbn [SFcompare XF.le]; pose proof (Z.pow_pos_nonneg 2 (Zpos p) ltac:(lia) ltac:(lia));
    [apply eq_sym, Qle_bool_iff | apply eq_sym, not_true_iff_false; rewrite Qle_bool_iff];
    unfold Qle; cbn [Qnum Qden inject_Z]; nia.
Qed.

Lemma leb_one_exact (x : float) :
  PrimFloat.leb (float_of_Z 1) x = XF.le (XFin (inject_Z 1)) (exact_of_float x).
Proof.
  rewrite FloatAxioms.leb_spec.
  change (Prim2SF (float_of_Z 1)) with (S754_finite false 4503599627370496 (-52)).
  unfold exact_of_float, SFleb.
  pose proof (FloatAxioms.Prim2SF_valid x) as Hv.
  destruct (Prim2SF x) as [[]|[]| |[] m e]; try reflexivity;
    destruct (finite_mantissa_bounds _ _ _ Hv) as [Hm1 Hm2]; clear Hv; cbn [SFcompare XF.le].
  - destruct e as [|p|p]; apply eq_sym, not_true_iff_false; rewrite Qle_bool_iff;
      unfold Qle; cbn [Qnum Qden inject_Z]; try rewrite Pos2Z.inj_pow;
      try pose proof (Z.pow_pos_nonneg 2 (Zpos p) ltac:(lia) ltac:(lia)); nia.
  - destruct e as [|p|p].
    + apply eq_sym, Qle_bool_iff. unfold Qle. cbn [Qnum Qden inject_Z]. lia.
    + apply eq_sym, Qle_bool_iff. unfold Qle. cbn [Qnum Qden inject_Z].
      pose proof (Z.pow_pos_nonneg 2 (Zpos p) ltac:(lia) ltac:(lia)). nia.
    + destruct (Z.compare_spec (-52) (Zneg p)) as [Hc|Hc|Hc].
      * injection Hc as <-.
        change (Pos.compare_cont Eq 4503599627370496 m) with (Z.compare 4503599627370496 (Zpos m)).
        destruct (Z.compare_spec 4503599627370496 (Zpos m)) as [Hp|Hp|Hp];
          [apply eq_sym, Qle_bool_iff | apply eq_sym, Qle_bool_iff
          | apply eq_sym, not_true_iff_false; rewrite Qle_bool_iff];
          unfold Qle; cbn [Qnum Qden inject_Z]; rewrite Pos2Z.inj_pow;
          change (2 ^ Zpos 52) with 4503599627370496; lia.
      * apply eq_sym, Qle_bool_iff. unfold Qle. cbn [Qnum Qden inject_Z]. rewrite Pos2Z.inj_pow.
        assert (2 ^ Zpos p <= 2 ^ 52) by (apply Z.pow_le_mono_r; lia).
        change (2 ^ 52) with 4503599627370496 in *.
        specialize (Hm2 ltac:(lia)). lia.
      * apply eq_sym, not_true_iff_false. rewrite Qle_bool_iff.
        unfold Qle. cbn [Qnum Qden inject_Z]. rewrite Pos2Z.inj_pow.
        assert (2 ^ 53 <= 2 ^ Zpos p) by (apply Z.pow_le_mono_r; lia).
        change (2 ^ 53) with 9007199254740992 in *. lia.
Qed.

End Binary64Compare.

(** X1: on binary64 floats, [_validate_args] either passes or raises
    ValueError, and it passes exactly when the blocking probability is in
    (0,1) or NaN, the server count is an integer [m >= 1], the source count
    an integer [n > m], and the total traffic is above 0 or NaN. *)
Theorem validate_args_accepts_iff (bp E : float) (ns nsrc : @PyNum float) :
  (_validate_args bp ns nsrc E = Ok tt \/ _validate_args bp ns nsrc E = Raise ValueError) /\
  (_validate_args bp ns nsrc E = Ok tt <->
   accepted_prob (exact_of_float bp) /\
   (exists m n, int_count ns m /\ int_count nsrc n /\ 1 <= m < n) /\
   accepted_traffic (exact_of_float E)).
Proof.
  split; [apply validate_only_value_error |].
  exact (validate_accepts_iff_exact bp E ns nsrc
           (leb_zero_exact bp) (leb_one_exact bp) (leb_zero_exact E)).
Qed.

(** ** Iteration budget of the servers bisection *)

Section ServersBudget.
Context {F : Type} `{PyFloat F}.

Lemma pow2_succ_nat (j : nat) : 2 ^ Z.of_nat (S j) = 2 * 2 ^ Z.of_nat j.
Proof. rewrite Nat2Z.inj_succ, Z.pow_succ_r by lia. reflexivity. Qed.

Lemma pow2_nat_pos (j : nat) : 0 < 2 ^ Z.of_nat j.
Proof. apply Z.pow_pos_nonneg; lia. Qed.

(** Each step of the loop halves the candidate range [lo..hi]. *)
Lemma n_servers_loop_converges fuel P N y tol max_n_iters
    (Htest : forall n, 1 <= n < N -> exists b, servers_test fuel P N y tol n = Ok b) :
  forall iters j k lo hi last,
  1 <= lo <= hi -> hi <= N -> hi - lo + 1 <= 2 ^ Z.of_nat j -> (j < iters)%nat ->
  exists res, n_servers_loop fuel iters P N y tol max_n_iters k lo hi last = Ok res /\
              status res = OK /\ n_iters res <= k + Z.of_nat j.
Proof.
  induction iters as [|iters IH]; intros j k lo hi last Hb HN Hs Hj; [lia |].
  cbn [n_servers_loop].
  destruct (lo =? hi) eqn:Heq.
  - eexists. split; [reflexivity |]. split; [reflexivity | simpl; lia].
  - apply Z.eqb_neq in Heq.
    destruct j as [|j]; [simpl in Hs; lia |].
    rewrite pow2_succ_nat in Hs. pose proof (pow2_nat_pos j).
    destruct (Htest ((lo + hi) / 2)) as [[] Ht]; [Z.div_mod_to_equations; lia | |];
      rewrite Ht; cbn [bind].
    + destruct (IH j (k + 1) lo ((lo + hi) / 2) (Some ((lo + hi) / 2)))
        as (res & Hr & Hst & Hn); try (Z.div_mod_to_equations; lia).
      exists res. split; [exact Hr |]. split; [exact Hst | lia].
    + destruct (IH j (k + 1) ((lo + hi) / 2 + 1) hi (Some ((lo + hi) / 2)))
        as (res & Hr & Hst & Hn); try (Z.div_mod_to_equations; lia).
      exists res. split; [exact Hr |]. split; [exact Hst | lia].
Qed.

End ServersBudget.

(** When the test [1.0 / _hyp2f1(n, N, P + N / E - 1.0, tol) < P] evaluates
    without an exception at every [n] in [1..N-1] ([N >= 2], which the
    entry point's validation ensures), the servers bisection
    returns status OK after at most [ceil(log2 N) + 1] iterations, as soon
    as [max_n_iters] allows that many. *)
Theorem n_servers_bisect_within_budget {F} `{PyFloat F} (fuel : nat) (P E tol : F)
    (N max_n_iters : Z) :
  2 <= N -> Z.log2_up N + 1 <= max_n_iters ->
  (forall n, 1 <= n < N -> exists b, servers_check fuel P N E tol n = Ok b) ->
  exists res, _n_servers_bisect fuel P N E max_n_iters tol = Ok res /\
              status res = OK /\ n_iters res <= Z.log2_up N + 1.
Proof.
  intros HN Hmax Htest. unfold _n_servers_bisect. unfold servers_check in Htest.
  destruct (py_div (fofZ N) E) as [r| |] eqn:Hr;
    [| destruct (Htest 1) as [b Hb]; [lia | discriminate] ..].
  cbn [bind] in Htest |- *.
  pose proof (Z.log2_up_nonneg N).
  destruct (n_servers_loop_converges fuel P N (fsub (fadd P r) (fofZ 1)) tol max_n_iters Htest
              (range_len 1 (max_n_iters + 1)) (Z.to_nat (Z.log2_up N)) 1 1 N None)
    as (res & Hrun & Hst & Hn).
  - lia.
  - lia.
  - rewrite Z2Nat.id by lia. pose proof (proj2 (Z.log2_log2_up_spec N ltac:(lia))). lia.
  - unfold range_len. lia.
  - exists res. split; [exact Hrun |]. split; [exact Hst |]. rewrite Z2Nat.id in Hn by lia. lia.
Qed.

Lemma n_servers_bisect_within_budget_witness :
  exists res, _n_servers_bisect 2000 P_boundary 10 2%float 1024 default_tol = Ok res /\
              status res = OK /\ n_iters res <= Z.log2_up 10 + 1.
Proof.
  apply n_servers_bisect_within_budget.
  - lia.
  - apply Z.leb_le. reflexivity.
  - intros n Hn.
    assert (Hc : n = 1 \/ n = 2 \/ n = 3 \/ n = 4 \/ n = 5 \/ n = 6 \/ n = 7 \/ n = 8 \/
                 n = 9) by lia.
    repeat destruct Hc as [-> | Hc]; [.. | subst n]; eexists; vm_compute; reflexivity.
Defined.

(** ** [_hyp2f1_coefs] when [n_sources <= n_servers] *)

Section CoefsZeroDivision.
Context {F : Type} `{PyFloat F}.

(** The denominator counter [g] starts at [-d] and meets [0] after [d]
    steps, while [f] is still positive and the writes are in bounds. *)
Lemma hyp2f1_coefs_loop_zero_division :
  forall (d : nat) fuel f k (coefs : list F),
  (d < fuel)%nat -> Z.of_nat d < f -> 1 <= k -> k + Z.of_nat d < Z.of_nat (length coefs) ->
  hyp2f1_coefs_loop fuel f (- Z.of_nat d) k coefs = Raise ZeroDivisionError.
Proof.
  induction d as [|d IH]; intros fuel f k coefs Hfuel Hf Hk Hlen;
    (destruct fuel as [|fuel]; [lia |]); cbn [hyp2f1_coefs_loop].
  - reflexivity.
  - unfold py_int_div. rewrite (proj2 (Z.eqb_neq (- Z.of_nat (S d)) 0)) by lia. cbn [bind].
    rewrite np_get_in_range by lia. cbn [bind].
    rewrite np_set_in_range by lia. cbn [bind].
    rewrite (proj2 (Z.eqb_neq (f - 1) 0)) by lia.
    replace (- Z.of_nat (S d) + 1) with (- Z.of_nat d) by lia.
    apply IH; try rewrite list_set_length; lia.
Qed.

Lemma py_int_PInt (z : Z) : @py_int F _ (PInt z) = Ok z.
Proof. unfold py_int. simpl. now rewrite Z.quot_1_r. Qed.

End CoefsZeroDivision.

(** [_hyp2f1_coefs(n_servers, n_sources)] with [1 <= n_sources <= n_servers]
    raises [ZeroDivisionError]: its counter [g = n_sources - n_servers]
    reaches 0 before [f] does.  So with [check=False] every algorithm of
    [blocking_prob] and of [total_traffic] raises it on such counts (BISECT
    provided no [initial_guess] keyword is passed, which it would refuse
    with [TypeError]). *)
Theorem unchecked_sources_not_above_servers_zero_division {F} `{PyFloat F} (fuel : nat)
    (m n max_n_iters : Z) (bp E tol : F) (kwargs : option F) :
  1 <= n <= m -> (Z.to_nat m <= fuel)%nat ->
  _hyp2f1_coefs fuel m n = Raise ZeroDivisionError /\
  (forall alg, alg <> NotAnAlgorithm -> (alg = Alg BISECT -> kwargs = None) ->
     blocking_prob fuel (PInt m) (PInt n) E alg max_n_iters tol false kwargs
     = Raise ZeroDivisionError) /\
  (forall alg, alg = Alg BISECT \/ alg = Alg NEWTON -> (alg = Alg BISECT -> kwargs = None) ->
     total_traffic fuel bp (PInt m) (PInt n) alg max_n_iters tol false kwargs
     = Raise ZeroDivisionError).
Proof.
  intros Hnm Hfuel.
  assert (Hc : _hyp2f1_coefs fuel m n = Raise ZeroDivisionError).
  { unfold _hyp2f1_coefs, np_zeros. rewrite (proj2 (Z.ltb_ge (m + 1) 0)) by lia. cbn [bind].
    rewrite np_set_in_range by (rewrite repeat_length; lia). cbn [bind].
    replace (n - m) with (- Z.of_nat (Z.to_nat (m - n))) by lia.
    apply hyp2f1_coefs_loop_zero_division; try rewrite list_set_length, repeat_length; lia. }
  split; [exact Hc |]. split.
  - intros alg Halg Hkw. unfold blocking_prob, when_check. rewrite !py_int_PInt. cbn [bind].
    destruct alg as [[] |]; [| | | congruence].
    + rewrite Hkw by reflexivity. cbn [bind]. unfold _blocking_prob_bisect. now rewrite Hc.
    + unfold _blocking_prob_fixed_point. now rewrite Hc.
    + unfold _blocking_prob_newton. now rewrite Hc.
  - intros alg Halg Hkw. unfold total_traffic, when_check. rewrite !py_int_PInt. cbn [bind].
    destruct Halg as [-> | ->].
    + rewrite Hkw by reflexivity. cbn [bind]. unfold _total_traffic_bisect. now rewrite Hc.
    + unfold _total_traffic_newton. now rewrite Hc.
Qed.

Lemma unchecked_sources_not_above_servers_zero_division_witness :
  _hyp2f1_coefs (F := float) 10 3 2 = Raise ZeroDivisionError /\
  blocking_prob 10 (PInt 3) (PInt 2) 2%float (Alg NEWTON) 1024 default_tol false None
    = Raise ZeroDivisionError.
Proof.
  destruct (unchecked_sources_not_above_servers_zero_division (F := float) 10 3 2 1024
              0.5%float 2%float default_tol None ltac:(lia) ltac:(vm_compute; lia))
    as (H1 & H2 & _).
  split; [exact H1 |]. apply H2; discriminate.
Defined.

(** ** Iteration budget of the sources bisection *)

Section SourcesBudget.
Context {F : Type} `{PyFloat F}.


End SourcesBudget.



(** ** A non-positive iteration budget *)

(** X11: with [max_n_iters <= 0] the loops of the fixed-point and Newton
    routines run no iteration.  For counts converting to [1 <= m < n] and,
    for the blocking probability, a total traffic other than [0.0], the
    entry points return [MAX_N_ITERS_REACHED] with [n_iters = max_n_iters]
    and the initial guess as value: [0.5] by default for the blocking
    probability, [1.0] for the total traffic.  This holds with and without
    validation, as long as the validation passes. *)
Theorem nonpositive_budget_returns_initial_guess {F} `{PyFloat F} (fuel : nat)
    (ns nsrc : PyNum) (m n : Z) (bp E tol : F) (max_n_iters : Z) (check : bool)
    (kwargs : option F) :
  py_int ns = Ok m -> py_int nsrc = Ok n -> 1 <= m < n -> (Z.to_nat m <= fuel)%nat ->
  max_n_iters <= 0 ->
  (feq E (fofZ 0) = false ->
   when_check check (_validate_args (fdiv (fofZ 1) (fofZ 2)) ns nsrc E) = Ok tt ->
   blocking_prob fuel ns nsrc E (Alg FIXEDP) max_n_iters tol check kwargs
     = Ok (mkResult max_n_iters MAX_N_ITERS_REACHED
             (VFloat (match kwargs with Some x => x | None => fdiv (fofZ 1) (fofZ 2) end))) /\
   blocking_prob fuel ns nsrc E (Alg NEWTON) max_n_iters tol check kwargs
     = Ok (mkResult max_n_iters MAX_N_ITERS_REACHED
             (VFloat (match kwargs with Some x => x | None => fdiv (fofZ 1) (fofZ 2) end)))) /\
  (when_check check (_validate_args bp ns nsrc (fofZ 1)) = Ok tt ->
   total_traffic fuel bp ns nsrc (Alg NEWTON) max_n_iters tol check kwargs
     = Ok (mkResult max_n_iters MAX_N_ITERS_REACHED
             (VFloat (match kwargs with Some x => x | None => fofZ 1 end)))).
Proof.
  intros Hm Hn Hmn Hfuel Hmax.
  assert (Hr : range_len 1 (max_n_iters + 1) = 0%nat) by (unfold range_len; lia).
  split.
  - intros HE Hv. unfold blocking_prob.
    rewrite Hv. cbn [bind]. rewrite Hm, Hn. cbn [bind].
    unfold _blocking_prob_fixed_point, _blocking_prob_newton.
    rewrite hyp2f1_coefs_spec by lia. cbn [bind].
    unfold py_div. rewrite HE. cbn [bind]. rewrite Hr. split; reflexivity.
  - intros Hv. unfold total_traffic.
    rewrite Hv. cbn [bind]. rewrite Hm, Hn. cbn [bind].
    unfold _total_traffic_newton.
    rewrite hyp2f1_coefs_spec by lia. cbn [bind]. rewrite Hr. reflexivity.
Qed.

Lemma nonpositive_budget_returns_initial_guess_witness :
  blocking_prob 10 (PInt 2) (PInt 5) 2%float (Alg FIXEDP) 0 default_tol true None
    = Ok (mkResult 0 MAX_N_ITERS_REACHED (VFloat (fdiv (fofZ 1) (fofZ 2)))) /\
  total_traffic 10 0.25%float (PInt 2) (PInt 5) (Alg NEWTON) (-3) default_tol true (Some 7%float)
    = Ok (mkResult (-3) MAX_N_ITERS_REACHED (VFloat 7%float)).
Proof.
  split.
  - apply (proj1 (proj1 (nonpositive_budget_returns_initial_guess 10 (PInt 2) (PInt 5) 2 5
             0.25%float 2%float default_tol 0 true None eq_refl eq_refl ltac:(lia)
             ltac:(vm_compute; lia) ltac:(lia)) ltac:(vm_compute; reflexivity)
             ltac:(vm_compute; reflexivity))).
  - apply (proj2 (nonpositive_budget_returns_initial_guess 10 (PInt 2) (PInt 5) 2 5
             0.25%float 2%float default_tol (-3) true (Some 7%float) eq_refl eq_refl ltac:(lia)
             ltac:(vm_compute; lia) ltac:(lia))).
    vm_compute. reflexivity.
Defined.

(** ** Results of the servers bisection *)

Section ServersRange.
Context {F : Type} `{PyFloat F}.

Lemma n_servers_loop_in_range fuel P N y tol max_n_iters :
  forall iters k lo hi last r,
  1 <= lo <= hi -> hi <= N ->
  (forall v, last = Some v -> 1 <= v <= N) ->
  (last = None -> (0 < iters)%nat) ->
  n_servers_loop fuel iters P N y tol max_n_iters k lo hi last = Ok r ->
  (status r = OK \/ (status r = MAX_N_ITERS_REACHED /\ n_iters r = max_n_iters)) /\
  exists v, value r = VInt v /\ 1 <= v <= N.
Proof.
  induction iters as [|iters IH]; intros k lo hi last r Hb HN Hlast Hnone Hrun;
    cbn [n_servers_loop] in Hrun.
  - destruct last as [v|]; [| specialize (Hnone eq_refl); lia].
    cbn in Hrun. injection Hrun as <-. split; [right; split; reflexivity |].
    exists v. split; [reflexivity | now apply Hlast].
  - destruct (lo =? hi) eqn:Heq.
    + apply Z.eqb_eq in Heq. injection Hrun as <-.
      split; [left; reflexivity |]. exists lo. split; [reflexivity | lia].
    + apply Z.eqb_neq in Heq.
      destruct (servers_test fuel P N y tol ((lo + hi) / 2)) as [[]| |];
        cbn [bind] in Hrun; try discriminate;
        (eapply IH; [| | | | exact Hrun]);
        try (intros v Hv; injection Hv as <-); try discriminate;
        Z.div_mod_to_equations; lia.
Qed.

End ServersRange.

(** X12: when [n_sources_ >= 1] and [max_n_iters >= 1], a result of
    [_n_servers_bisect] has status OK, or MAX_N_ITERS_REACHED with
    [n_iters = max_n_iters], and an int value in [[1, n_sources_]]. *)
Theorem n_servers_bisect_result_in_range {F} `{PyFloat F} (fuel : nat) (P E tol : F)
    (N max_n_iters : Z) (r : Result F) :
  1 <= N -> 1 <= max_n_iters ->
  _n_servers_bisect fuel P N E max_n_iters tol = Ok r ->
  (status r = OK \/ (status r = MAX_N_ITERS_REACHED /\ n_iters r = max_n_iters)) /\
  exists v, value r = VInt v /\ 1 <= v <= N.
Proof.
  intros HN Hmax Hrun. unfold _n_servers_bisect in Hrun.
  destruct (py_div (fofZ N) E) as [q| |]; cbn [bind] in Hrun; try discriminate.
  eapply n_servers_loop_in_range; [| | | | exact Hrun]; try discriminate; [lia | lia |].
  intros _. unfold range_len. lia.
Qed.

Lemma n_servers_bisect_result_in_range_witness :
  (status (mkResult (F:=float) 4 OK (VInt 4)) = OK \/
   (status (mkResult (F:=float) 4 OK (VInt 4)) = MAX_N_ITERS_REACHED /\
    n_iters (mkResult (F:=float) 4 OK (VInt 4)) = 1024)) /\
  exists v, value (mkResult (F:=float) 4 OK (VInt 4)) = VInt v /\ 1 <= v <= 10.
Proof.
  apply (n_servers_bisect_result_in_range 2000 0.125%float 2%float default_tol 10 1024).
  - lia.
  - lia.
  - vm_compute. reflexivity.
Defined.
